(** * K-HUB chat application: a model of [app.py] and its specification

    The Flask application of [src/app.py] is embedded as pure functions over
    an explicit [World]: the contents of [users.json], the per-user chat
    history files and the session cookie of the client that sends the
    request.  Every view function becomes a function from the request and
    the world to a response and the world after the request.

    What lies outside the repository is a parameter of the model:
    - [generate_password_hash] and [check_password_hash] (werkzeug) are
      section variables; the salt drawn by werkzeug is an argument;
    - the outcome of [model.generate_content(...)] followed by
      [response.text] is an argument of [send] (a text or a raised
      exception with its description);
    - the string of [uuid.uuid4()] is an argument of [create_new_chat].

    Text is modelled by [string], one [ascii] per character; this is exact
    for ASCII text.  The warning sign of the three message literals is kept
    as the bytes of the source file; these literals are only ever compared
    and concatenated.  Files are an idealised store in which every read and
    write succeeds and JSON round-trips the records. *)

From Stdlib Require Import Ascii String.
From stdpp Require Import base strings list gmap.

(** ** Python string operations used by the application *)

Module Py.

(** [c.lower()] on one character: the letters A-Z move to a-z. *)
Definition lower_char (c : ascii) : ascii :=
  let n := nat_of_ascii c in
  if (65 <=? n) && (n <=? 90) then ascii_of_nat (n + 32) else c.

(** [s.lower()] *)
Fixpoint lower (s : string) : string :=
  match s with
  | EmptyString => EmptyString
  | String c rest => String (lower_char c) (lower rest)
  end.

(** [s.replace(old, new)] for one-character [old] and [new]. *)
Fixpoint replace (old new : ascii) (s : string) : string :=
  match s with
  | EmptyString => EmptyString
  | String c rest =>
      String (if Ascii.eqb c old then new else c) (replace old new rest)
  end.

(** [s[:n]] *)
Fixpoint slice_to (n : nat) (s : string) : string :=
  match n, s with
  | S n', String c rest => String c (slice_to n' rest)
  | _, _ => EmptyString
  end.

(** The characters [str.isspace] accepts below 128: tab, line feed,
    vertical tab, form feed, carriage return, the four separators
    28-31 and the space. *)
Definition isspace (c : ascii) : bool :=
  let n := nat_of_ascii c in
  ((9 <=? n) && (n <=? 13)) || ((28 <=? n) && (n <=? 32)).

Fixpoint lstrip (s : string) : string :=
  match s with
  | EmptyString => EmptyString
  | String c rest => if isspace c then lstrip rest else s
  end.

Fixpoint rstrip (s : string) : string :=
  match s with
  | EmptyString => EmptyString
  | String c rest =>
      match rstrip rest with
      | EmptyString => if isspace c then EmptyString else String c EmptyString
      | kept => String c kept
      end
  end.

(** [s.strip()] *)
Definition strip (s : string) : string := rstrip (lstrip s).

End Py.

(** ** Data model: the records stored in the JSON files *)

(** An entry of [users.json]: [{'name', 'email', 'password'}]. *)
Record User := mkUser {
  u_name : string;
  u_email : string;
  u_password : string
}.

(** An entry of a chat's message list: [{"user", "bot"}]. *)
Record Message := mkMessage {
  m_user : string;
  m_bot : string
}.

(** An entry of a history file: [{"id", "title", "messages"}]. *)
Record Chat := mkChat {
  c_id : string;
  c_title : string;
  c_messages : list Message
}.

(** The value of [session['user']]: [{'name', 'email'}]. *)
Record SessionUser := mkSessionUser {
  s_name : string;
  s_email : string
}.

(** The world a request runs in.  [users_file] is [None] while
    [users.json] does not exist; [history_files] maps a file name to the
    chats it holds; [session] is [None] when ['user'] is not in the
    session. *)
Record World := mkWorld {
  users_file : option (list User);
  history_files : gmap string (list Chat);
  session : option SessionUser
}.

(** ** Requests and responses *)

Inductive http_method := GET | HEAD | POST.

(** [request.method] and [request.form]. *)
Record Request := mkRequest {
  method : http_method;
  form : gmap string string
}.

(** The endpoints [url_for] is called with. *)
Inductive endpoint :=
| ep_home
| ep_signup
| ep_login
| ep_chat (chat_id : string).

(** What a view function returns.  [BadRequest] is the 400 answer Flask
    gives when [request.form[key]] is read for a missing key. *)
Inductive Response :=
| Redirect (target : endpoint)
| Body (text : string)
| RenderForm (template : string)
| RenderIndex (current_chat : Chat) (chats : list Chat) (username : string)
| BadRequest.

(** The outcome of [model.generate_content(user_input)] followed by
    [response.text]: a text, or an exception [e] given by [str(e)]. *)
Inductive Completion :=
| Replied (text : string)
| Raised (description : string).

Definition email_registered_msg : string := "⚠️ Email already registered.".
Definition invalid_login_msg : string := "⚠️ Invalid email or password.".
Definition error_prefix : string := "⚠️ Error: ".
Definition default_title : string := "New Chat".

(** ** The application *)

Section App.

(** [werkzeug.security]: [generate_password_hash] with the salt it draws
    made explicit, and [check_password_hash pwhash password]. *)
Variable generate_password_hash : string -> string -> string.
Variable check_password_hash : string -> string -> bool.

(** *** History helpers *)

Definition get_history_file (w : World) : string :=
  match session w with
  | Some usr =>
      let username := Py.replace " " "_" (Py.lower (s_name usr)) in
      "chat_history_" +:+ username +:+ ".json"
  | None => "chat_history_guest.json"
  end.

Definition load_history (w : World) : list Chat :=
  let filename := get_history_file w in
  match history_files w !! filename with
  | Some chats => chats
  | None => []
  end.

Definition save_history (history : list Chat) (w : World) : World :=
  let filename := get_history_file w in
  {| users_file := users_file w;
     history_files := <[filename := history]> (history_files w);
     session := session w |}.

(** *** User helpers *)

Definition load_users (w : World) : list User :=
  match users_file w with
  | Some users => users
  | None => []
  end.

Definition save_users (users : list User) (w : World) : World :=
  {| users_file := Some users;
     history_files := history_files w;
     session := session w |}.

Definition set_session (usr : option SessionUser) (w : World) : World :=
  {| users_file := users_file w;
     history_files := history_files w;
     session := usr |}.

(** *** Chat helpers *)

(** The loop of [get_chat_by_id]: the first chat whose id is [chat_id]. *)
Fixpoint find_chat (chat_id : string) (history : list Chat) : option Chat :=
  match history with
  | [] => None
  | chat :: rest =>
      if String.eqb (c_id chat) chat_id then Some chat
      else find_chat chat_id rest
  end.

Definition get_chat_by_id (chat_id : string) (w : World) : option Chat :=
  find_chat chat_id (load_history w).

(** [uuid4] is the text of [uuid.uuid4()]. *)
Definition create_new_chat (uuid4 : string) (w : World) : string * World :=
  let chat_id := Py.slice_to 8 uuid4 in
  let new_chat :=
    {| c_id := chat_id; c_title := "New Chat"; c_messages := [] |} in
  let history := load_history w in
  (chat_id, save_history (history ++ [new_chat]) w).

(** *** Auth routes *)

(** The loop of [signup]: some stored email equals [email] as it is. *)
Fixpoint email_taken (email : string) (users : list User) : bool :=
  match users with
  | [] => false
  | u :: rest =>
      if String.eqb (u_email u) email then true else email_taken email rest
  end.

Definition signup (salt : string) (req : Request) (w : World)
  : Response * World :=
  match method req with
  | POST =>
      match form req !! "name", form req !! "email", form req !! "password" with
      | Some name, Some raw_email, Some password =>
          let email := Py.lower raw_email in
          let users := load_users w in
          if email_taken email users then (Body email_registered_msg, w)
          else
            let hashed_pw := generate_password_hash salt password in
            let users :=
              users ++ [{| u_name := name; u_email := email;
                           u_password := hashed_pw |}] in
            let w := save_users users w in
            let w :=
              set_session (Some {| s_name := name; s_email := email |}) w in
            (Redirect ep_home, w)
      | _, _, _ => (BadRequest, w)
      end
  | _ => (RenderForm "signup.html", w)
  end.

(** The loop of [login]: the first user whose lowercased email is [email]
    and whose hash verifies [password]. *)
Fixpoint find_user (email password : string) (users : list User)
  : option User :=
  match users with
  | [] => None
  | user :: rest =>
      if String.eqb (Py.lower (u_email user)) email
         && check_password_hash (u_password user) password
      then Some user
      else find_user email password rest
  end.

Definition login (req : Request) (w : World) : Response * World :=
  match method req with
  | POST =>
      match form req !! "email", form req !! "password" with
      | Some raw_email, Some password =>
          let email := Py.lower raw_email in
          let users := load_users w in
          match find_user email password users with
          | Some user =>
              let w :=
                set_session (Some {| s_name := u_name user;
                                     s_email := u_email user |}) w in
              (Redirect ep_home, w)
          | None => (Body invalid_login_msg, w)
          end
      | _, _ => (BadRequest, w)
      end
  | _ => (RenderForm "login.html", w)
  end.

Definition logout (w : World) : Response * World :=
  (Redirect ep_login, set_session None w).

(** *** Chat routes *)

Definition home (uuid4 : string) (w : World) : Response * World :=
  match session w with
  | None => (Redirect ep_signup, w)
  | Some _ =>
      let history := load_history w in
      match last history with
      | Some chat => (Redirect (ep_chat (c_id chat)), w)
      | None =>
          let '(chat_id, w) := create_new_chat uuid4 w in
          (Redirect (ep_chat chat_id), w)
      end
  end.

Definition chat (chat_id : string) (w : World) : Response * World :=
  match session w with
  | None => (Redirect ep_signup, w)
  | Some usr =>
      match get_chat_by_id chat_id w with
      | None => (Redirect ep_home, w)
      | Some chat_data =>
          (RenderIndex chat_data (load_history w) (s_name usr), w)
      end
  end.

(** The title a chat takes from the message that is sent to it. *)
Definition derive_title (user_input : string) : string :=
  if 20 <? String.length user_input
  then Py.slice_to 20 user_input +:+ "..."
  else user_input.

(** The body of the loop of [send] at the chat whose id matched. *)
Definition append_message (user_input bot_reply : string) (chat : Chat)
  : Chat :=
  {| c_id := c_id chat;
     c_title :=
       if String.eqb (c_title chat) "New Chat"
       then derive_title user_input
       else c_title chat;
     c_messages :=
       c_messages chat ++ [{| m_user := user_input; m_bot := bot_reply |}] |}.

(** The loop of [send]: the first chat whose id is [chat_id] is updated
    in place, then the loop breaks. *)
Fixpoint send_loop (chat_id user_input bot_reply : string)
  (history : list Chat) : list Chat :=
  match history with
  | [] => []
  | chat :: rest =>
      if String.eqb (c_id chat) chat_id
      then append_message user_input bot_reply chat :: rest
      else chat :: send_loop chat_id user_input bot_reply rest
  end.

(** The [try ... except Exception] of [send]. *)
Definition bot_reply_of (outcome : Completion) : string :=
  match outcome with
  | Replied text => Py.strip text
  | Raised e => "⚠️ Error: " +:+ e
  end.

Definition send (chat_id : string) (outcome : Completion) (req : Request)
  (w : World) : Response * World :=
  match session w with
  | None => (Redirect ep_signup, w)
  | Some _ =>
      match form req !! "msg" with
      | None => (BadRequest, w)
      | Some user_input =>
          let bot_reply := bot_reply_of outcome in
          let history := load_history w in
          let history := send_loop chat_id user_input bot_reply history in
          let w := save_history history w in
          (Redirect (ep_chat chat_id), w)
      end
  end.

Definition new_chat (uuid4 : string) (w : World) : Response * World :=
  match session w with
  | None => (Redirect ep_signup, w)
  | Some _ =>
      let '(chat_id, w) := create_new_chat uuid4 w in
      (Redirect (ep_chat chat_id), w)
  end.

Definition delete_chat (chat_id : string) (w : World) : Response * World :=
  match session w with
  | None => (Redirect ep_signup, w)
  | Some _ =>
      let history := load_history w in
      let history :=
        List.filter (fun chat => negb (String.eqb (c_id chat) chat_id))
          history in
      let w := save_history history w in
      match last history with
      | Some chat => (Redirect (ep_chat (c_id chat)), w)
      | None => (Redirect ep_home, w)
      end
  end.

End App.

(** ** Vocabulary of the specification *)

(** The stored user [u] has the email [email] up to case. *)
Definition same_email (email : string) (u : User) : Prop :=
  Py.lower (u_email u) = Py.lower email.

(** The stored user [u] answers a login with [email] and [password]: the
    emails agree up to case and the stored hash verifies the password. *)
Definition credentials_match (check_password_hash : string -> string -> bool)
    (email password : string) (u : User) : Prop :=
  same_email email u /\ check_password_hash (u_password u) password = true.

(** The session a successful login as [u] establishes. *)
Definition session_of (u : User) : SessionUser :=
  {| s_name := u_name u; s_email := u_email u |}.

(** A run of [send] requests, each with its chat id, the outcome of its
    completion call and its form; the responses are dropped. *)
Fixpoint sends (later : list (string * Completion * Request)) (w : World)
  : World :=
  match later with
  | [] => w
  | (chat_id, outcome, req) :: rest =>
      sends rest (send chat_id outcome req w).2
  end.

(** ** The routes as one step function *)

(** A call of a view function, with what the call draws from outside: the
    salt of a signup, the uuid of a chat creation, the outcome of the
    completion call of a send. *)
Inductive Call :=
| call_signup (salt : string) (req : Request)
| call_login (req : Request)
| call_logout
| call_home (uuid4 : string)
| call_chat (chat_id : string)
| call_send (chat_id : string) (outcome : Completion) (req : Request)
| call_new_chat (uuid4 : string)
| call_delete_chat (chat_id : string).

Section Routes.

Variable generate_password_hash : string -> string -> string.
Variable check_password_hash : string -> string -> bool.

(** The table of [@app.route]: which view function answers a call. *)
Definition dispatch (c : Call) (w : World) : Response * World :=
  match c with
  | call_signup salt req => signup generate_password_hash salt req w
  | call_login req => login check_password_hash req w
  | call_logout => logout w
  | call_home uuid4 => home uuid4 w
  | call_chat chat_id => chat chat_id w
  | call_send chat_id outcome req => send chat_id outcome req w
  | call_new_chat uuid4 => new_chat uuid4 w
  | call_delete_chat chat_id => delete_chat chat_id w
  end.

(** The world after a run of calls. *)
Fixpoint serve (calls : list Call) (w : World) : World :=
  match calls with
  | [] => w
  | c :: rest => serve rest (dispatch c w).2
  end.

End Routes.

(** The world of a fresh installation: no [users.json], no history file,
    nothing in the session. *)
Definition empty_world : World :=
  {| users_file := None; history_files := ∅; session := None |}.

(** The part of a history file name that comes from the display name. *)
Definition username_of (name : string) : string :=
  Py.replace " " "_" (Py.lower name).

(** Every stored email is its own lowercase form. *)
Definition emails_lowercased (users : list User) : Prop :=
  Forall (fun u => Py.lower (u_email u) = u_email u) users.

(** No two stored users have the same email up to case. *)
Definition emails_distinct (users : list User) : Prop :=
  NoDup (map (fun u => Py.lower (u_email u)) users).

(** [c'] is [c] after some sends: the same id and the messages of [c]
    followed by further ones. *)
Definition chat_extends (c c' : Chat) : Prop :=
  c_id c' = c_id c /\ c_messages c `prefix_of` c_messages c'.

(** The sizes the application gives to an id and to a title. *)
Definition chat_bounded (c : Chat) : Prop :=
  String.length (c_id c) <= 8 /\ String.length (c_title c) <= 23.

(** The first, respectively the last, character of [s] is a space in the
    sense of [str.isspace]. *)
Definition starts_with_space (s : string) : bool :=
  match s with
  | EmptyString => false
  | String c _ => Py.isspace c
  end.

Fixpoint ends_with_space (s : string) : bool :=
  match s with
  | EmptyString => false
  | String c EmptyString => Py.isspace c
  | String _ rest => ends_with_space rest
  end.

(** Every character of [s] is a space in the sense of [str.isspace]. *)
Fixpoint all_space (s : string) : bool :=
  match s with
  | EmptyString => true
  | String c rest => Py.isspace c && all_space rest
  end.

(** Every chat of every history file has the sizes of [chat_bounded]. *)
Definition histories_bounded (w : World) : Prop :=
  map_Forall (fun _ history => Forall chat_bounded history) (history_files w).

(** The chat [create_new_chat] appends for the uuid [uuid4]. *)
Definition blank_chat (uuid4 : string) : Chat :=
  {| c_id := Py.slice_to 8 uuid4; c_title := "New Chat"; c_messages := [] |}.

(** The list comprehension of [delete_chat]. *)
Definition without_chat (chat_id : string) (history : list Chat) : list Chat :=
  List.filter (fun chat => negb (String.eqb (c_id chat) chat_id)) history.

(** ** Sample data

    A degenerate instance of the hashing interface (the hash of a password
    is the salt, a dollar sign and the password) and a few worlds and
    requests, on which the theorems below are exercised. *)

Module Sample.

Definition generate (salt password : string) : string :=
  salt +:+ "$" +:+ password.

Fixpoint ends_with (suffix s : string) : bool :=
  String.eqb s suffix
  || match s with
     | EmptyString => false
     | String _ rest => ends_with suffix rest
     end.

Definition check (pwhash password : string) : bool :=
  ends_with ("$" +:+ password) pwhash.

Definition post (fields : list (string * string)) : Request :=
  {| method := POST; form := list_to_map fields |}.

Definition bob : User :=
  {| u_name := "Bob"; u_email := "bob@x.com"; u_password := "s1$hunter2" |}.

Definition bob_session : SessionUser :=
  {| s_name := "Bob"; s_email := "bob@x.com" |}.

Definition fresh_chat : Chat :=
  {| c_id := "abcd1234"; c_title := "New Chat"; c_messages := [] |}.

Definition titled_chat : Chat :=
  {| c_id := "abcd1234"; c_title := "Hi";
     c_messages := [{| m_user := "Hi"; m_bot := "Hello!" |}] |}.

Definition world_of (users : list User) (history : list Chat) : World :=
  {| users_file := Some users;
     history_files := {[ "chat_history_bob.json" := history ]};
     session := Some bob_session |}.

Definition anonymous (users : list User) : World :=
  {| users_file := Some users; history_files := ∅; session := None |}.

Definition other_chat : Chat :=
  {| c_id := "0f8e7d6c"; c_title := "Weather";
     c_messages := [{| m_user := "Weather"; m_bot := "Sunny." |}] |}.

Definition signup_bob : Call :=
  call_signup "s1"
    (post [("name", "Bob"); ("email", "Bob@X.com"); ("password", "hunter2")]).

End Sample.

(** ** Properties *)

(** *** Strings *)

Lemma lower_char_idempotent (c : ascii) :
  Py.lower_char (Py.lower_char c) = Py.lower_char c.
Proof.
  destruct c as [[] [] [] [] [] [] [] []]; reflexivity.
Qed.

Lemma lower_idempotent (s : string) : Py.lower (Py.lower s) = Py.lower s.
Proof.
  induction s as [|c s IH]; simpl; [reflexivity|].
  by rewrite lower_char_idempotent, IH.
Qed.

Lemma length_slice_to (n : nat) (s : string) :
  n <= String.length s -> String.length (Py.slice_to n s) = n.
Proof.
  revert s; induction n as [|n IH]; intros [|c s]; simpl; try lia; auto.
  intros H. rewrite IH; lia.
Qed.

Lemma string_length_app (s t : string) :
  String.length (s +:+ t) = String.length s + String.length t.
Proof. induction s as [|c s IH]; simpl; [reflexivity | by rewrite IH]. Qed.

Example lower_mixed_case : Py.lower "Bob@X.com" = "bob@x.com".
Proof. reflexivity. Qed.

Example strip_reply : Py.strip "  Hi there.
" = "Hi there.".
Proof. reflexivity. Qed.

Example derive_title_short : derive_title "Hello" = "Hello".
Proof. reflexivity. Qed.

Example derive_title_twenty :
  derive_title "abcdefghijklmnopqrst" = "abcdefghijklmnopqrst".
Proof. reflexivity. Qed.

Example derive_title_long :
  derive_title "abcdefghijklmnopqrstu" = "abcdefghijklmnopqrst...".
Proof. reflexivity. Qed.

Example history_file_of_name :
  get_history_file
    {| users_file := None; history_files := ∅;
       session := Some {| s_name := "Bob Smith"; s_email := "bob@x.com" |} |}
  = "chat_history_bob_smith.json".
Proof. reflexivity. Qed.

(** *** The stores *)

Lemma get_history_file_save_history (history : list Chat) (w : World) :
  get_history_file (save_history history w) = get_history_file w.
Proof. reflexivity. Qed.

Lemma load_history_save_history (history : list Chat) (w : World) :
  load_history (save_history history w) = history.
Proof.
  unfold load_history. rewrite get_history_file_save_history.
  unfold save_history; simpl. by rewrite lookup_insert_eq.
Qed.

Lemma history_files_save_history_ne (history : list Chat) (w : World)
    (filename : string) :
  filename ≠ get_history_file w ->
  history_files (save_history history w) !! filename
  = history_files w !! filename.
Proof. intros Hne. unfold save_history; simpl. by rewrite lookup_insert_ne. Qed.

Lemma load_users_save_users (users : list User) (w : World) :
  load_users (save_users users w) = users.
Proof. reflexivity. Qed.

Lemma load_users_set_session (usr : option SessionUser) (w : World) :
  load_users (set_session usr w) = load_users w.
Proof. reflexivity. Qed.

Lemma load_users_save_history (history : list Chat) (w : World) :
  load_users (save_history history w) = load_users w.
Proof. reflexivity. Qed.

Lemma session_save_history (history : list Chat) (w : World) :
  session (save_history history w) = session w.
Proof. reflexivity. Qed.

Create Rewrite HintDb stores.
#[local] Hint Rewrite load_history_save_history
  get_history_file_save_history load_users_save_users
  load_users_set_session load_users_save_history
  session_save_history : stores.

(** *** The loops *)

Section Loops.

Variable check_password_hash : string -> string -> bool.

Lemma find_user_Some (email password : string) (users : list User)
    (u : User) :
  find_user check_password_hash email password users = Some u ->
  u ∈ users /\ Py.lower (u_email u) = email
  /\ check_password_hash (u_password u) password = true.
Proof.
  induction users as [|v users IH]; simpl; [discriminate|].
  destruct (String.eqb_spec (Py.lower (u_email v)) email) as [He|He]; simpl.
  - destruct (check_password_hash (u_password v) password) eqn:Hc.
    + intros [= <-]. split; [left | done].
    + intros H. destruct (IH H) as (? & ? & ?). split; [by right | done].
  - intros H. destruct (IH H) as (? & ? & ?). split; [by right | done].
Qed.

Lemma find_user_None (email password : string) (users : list User) :
  find_user check_password_hash email password users = None <->
  forall u, u ∈ users ->
    ~ (Py.lower (u_email u) = email
       /\ check_password_hash (u_password u) password = true).
Proof.
  induction users as [|v users IH]; simpl.
  - split; [|done]. intros _ u Hu. by apply elem_of_nil in Hu.
  - destruct (String.eqb_spec (Py.lower (u_email v)) email) as [He|He];
      simpl.
    + destruct (check_password_hash (u_password v) password) eqn:Hc.
      * split; [discriminate|]. intros H. exfalso.
        apply (H v); [left | done].
      * rewrite IH. split.
        -- intros H u [->|Hu]%elem_of_cons; [|by apply H].
           intros [_ Hv]. congruence.
        -- intros H u Hu. apply H. by right.
    + rewrite IH. split.
      * intros H u [->|Hu]%elem_of_cons; [|by apply H].
        by intros [Hv _].
      * intros H u Hu. apply H. by right.
Qed.

End Loops.

Lemma email_taken_true (email : string) (users : list User) :
  email_taken email users = true <-> exists u, u ∈ users /\ u_email u = email.
Proof.
  induction users as [|v users IH]; simpl.
  - split; [discriminate|]. intros (u & Hu & _). by apply elem_of_nil in Hu.
  - destruct (String.eqb_spec (u_email v) email) as [He|He].
    + split; [|done]. intros _. exists v. split; [left | done].
    + rewrite IH. split.
      * intros (u & Hu & Hx). exists u. split; [by right | done].
      * intros (u & [->|Hu]%elem_of_cons & Hx); [done|]. by exists u.
Qed.

Lemma email_taken_false (email : string) (users : list User) :
  email_taken email users = false <->
  forall u, u ∈ users -> u_email u ≠ email.
Proof.
  rewrite <- not_true_iff_false, email_taken_true. split.
  - intros H u Hu He. apply H. by exists u.
  - intros H (u & Hu & He). by apply (H u).
Qed.

(** *** Login *)

Section Login.

Variable check_password_hash : string -> string -> bool.

#[local] Abbreviation login := (login check_password_hash).
#[local] Abbreviation credentials_match :=
  (credentials_match check_password_hash).

Lemma login_post (req : Request) (w : World) (email password : string) :
  method req = POST ->
  form req !! "email" = Some email ->
  form req !! "password" = Some password ->
  login req w =
    match find_user check_password_hash (Py.lower email) password
            (load_users w) with
    | Some user => (Redirect ep_home, set_session (Some (session_of user)) w)
    | None => (Body invalid_login_msg, w)
    end.
Proof. intros Hm He Hp. unfold login. by rewrite Hm, He, Hp. Qed.


(** C9. A login with a stored email and a password that no user of that
    email verifies, and a login with an email no stored user has, get
    the same response: the inline error text, with no redirect; neither
    changes the world. *)
Theorem login_failures_indistinguishable (req1 req2 : Request) (w : World)
    (email1 password1 email2 password2 : string) :
  method req1 = POST ->
  form req1 !! "email" = Some email1 ->
  form req1 !! "password" = Some password1 ->
  method req2 = POST ->
  form req2 !! "email" = Some email2 ->
  form req2 !! "password" = Some password2 ->
  (exists u, u ∈ load_users w /\ same_email email1 u) ->
  (forall u, u ∈ load_users w -> same_email email1 u ->
     check_password_hash (u_password u) password1 = false) ->
  (forall u, u ∈ load_users w -> ~ same_email email2 u) ->
  (login req1 w).1 = (login req2 w).1
  /\ login req1 w = (Body invalid_login_msg, w)
  /\ login req2 w = (Body invalid_login_msg, w).
Proof.
  intros Hm1 He1 Hp1 Hm2 He2 Hp2 _ Hwrong Habsent.
  rewrite (login_post req1 w email1 password1 Hm1 He1 Hp1).
  rewrite (login_post req2 w email2 password2 Hm2 He2 Hp2).
  assert (find_user check_password_hash (Py.lower email1) password1
            (load_users w) = None) as ->.
  { apply find_user_None. intros u Hin [Hemail Hcheck].
    rewrite (Hwrong u Hin Hemail) in Hcheck. discriminate. }
  assert (find_user check_password_hash (Py.lower email2) password2
            (load_users w) = None) as ->.
  { apply find_user_None. intros u Hin [Hemail _].
    by apply (Habsent u Hin). }
  done.
Qed.

End Login.


Lemma login_failures_indistinguishable_witness :
  let wrong := Sample.post [("email", "BOB@x.com"); ("password", "guess")] in
  let absent := Sample.post [("email", "eve@x.com"); ("password", "guess")] in
  let w := Sample.anonymous [Sample.bob] in
  (login Sample.check wrong w).1 = (login Sample.check absent w).1
  /\ login Sample.check wrong w = (Body invalid_login_msg, w)
  /\ login Sample.check absent w = (Body invalid_login_msg, w).
Proof.
  intros wrong absent w.
  apply (login_failures_indistinguishable Sample.check wrong absent w
           "BOB@x.com" "guess" "eve@x.com" "guess");
    try reflexivity.
  - exists Sample.bob. split; [left | reflexivity].
  - intros u ->%list_elem_of_singleton _. reflexivity.
  - intros u ->%list_elem_of_singleton. discriminate.
Defined.

(** *** Signup *)

Lemma find_user_app (check_password_hash : string -> string -> bool)
    (email password : string) (users more : list User) :
  find_user check_password_hash email password (users ++ more)
  = match find_user check_password_hash email password users with
    | Some u => Some u
    | None => find_user check_password_hash email password more
    end.
Proof.
  induction users as [|v users IH]; simpl; [reflexivity|].
  by destruct (_ && _).
Qed.

Lemma not_taken_of_absent_up_to_case (email : string) (users : list User) :
  (forall u, u ∈ users -> ~ same_email email u) ->
  forall u, u ∈ users -> u_email u ≠ Py.lower email.
Proof.
  intros Habsent u Hin He. apply (Habsent u Hin).
  unfold same_email. by rewrite He, lower_idempotent.
Qed.

Lemma ends_with_unfold (suffix s : string) :
  Sample.ends_with suffix s
  = String.eqb s suffix
    || match s with
       | EmptyString => false
       | String _ rest => Sample.ends_with suffix rest
       end.
Proof. by destruct s. Qed.

Lemma sample_check_generate (salt password : string) :
  Sample.check (Sample.generate salt password) password = true.
Proof.
  unfold Sample.check, Sample.generate.
  induction salt as [|c salt IH].
  - change ("" +:+ ?x) with x.
    by rewrite ends_with_unfold, String.eqb_refl.
  - change (String c salt +:+ ?x) with (String c (salt +:+ x)).
    rewrite ends_with_unfold. cbv iota. rewrite IH. apply orb_true_r.
Qed.

Section Signup.

Variable generate_password_hash : string -> string -> string.
Variable check_password_hash : string -> string -> bool.

(** What werkzeug promises: a generated hash verifies its password. *)
Hypothesis check_generate : forall salt password,
  check_password_hash (generate_password_hash salt password) password = true.

#[local] Abbreviation signup := (signup generate_password_hash).
#[local] Abbreviation login := (login check_password_hash).

Lemma signup_post (salt : string) (req : Request) (w : World)
    (name email password : string) :
  method req = POST ->
  form req !! "name" = Some name ->
  form req !! "email" = Some email ->
  form req !! "password" = Some password ->
  signup salt req w =
    if email_taken (Py.lower email) (load_users w)
    then (Body email_registered_msg, w)
    else
      let new_user :=
        {| u_name := name; u_email := Py.lower email;
           u_password := generate_password_hash salt password |} in
      (Redirect ep_home,
       set_session (Some {| s_name := name; s_email := Py.lower email |})
         (save_users (load_users w ++ [new_user]) w)).
Proof. intros Hm Hn He Hp. unfold signup. by rewrite Hm, Hn, He, Hp. Qed.

(** Every store that signups build from the empty one holds lowercased
    emails only; [signup] keeps it so. *)
Lemma signup_keeps_emails_lowercased (salt : string) (req : Request)
    (w : World) :
  Forall (fun u => Py.lower (u_email u) = u_email u) (load_users w) ->
  Forall (fun u => Py.lower (u_email u) = u_email u)
    (load_users (signup salt req w).2).
Proof.
  intros Hlow. unfold signup.
  destruct (method req); try done.
  destruct (form req !! "name"), (form req !! "email"),
    (form req !! "password"); try done.
  destruct (email_taken _ _); [done|]. simpl.
  apply Forall_app. split; [done|]. constructor; [|constructor].
  simpl. apply lower_idempotent.
Qed.

(** On a store whose emails are all lowercased, a signup with an email
    that is present up to case is refused and changes nothing. *)
Lemma signup_duplicate_refused_lowercased_store (salt : string)
    (req : Request) (w : World) (name email password : string) :
  method req = POST ->
  form req !! "name" = Some name ->
  form req !! "email" = Some email ->
  form req !! "password" = Some password ->
  Forall (fun u => Py.lower (u_email u) = u_email u) (load_users w) ->
  (exists u, u ∈ load_users w /\ same_email email u) ->
  signup salt req w = (Body email_registered_msg, w).
Proof.
  intros Hm Hn He Hp Hlow (u & Hin & Hsame).
  rewrite (signup_post salt req w name email password Hm Hn He Hp).
  assert (email_taken (Py.lower email) (load_users w) = true) as ->; [|done].
  apply email_taken_true. exists u. split; [done|].
  rewrite Forall_forall in Hlow. rewrite <- (Hlow u Hin). exact Hsame.
Qed.

(** C6. A signup request whose lowercased email equals no stored email is
    accepted; the user store grows by exactly one user, and every later
    login with the same email and password, on the store the signup left,
    redirects home with a session.  When no stored user has the email even
    up to case, that session is the one of the new user. *)
Theorem signup_then_login (salt : string) (req : Request) (w : World)
    (name email password : string) :
  method req = POST ->
  form req !! "name" = Some name ->
  form req !! "email" = Some email ->
  form req !! "password" = Some password ->
  (forall u, u ∈ load_users w -> u_email u ≠ Py.lower email) ->
  let w1 := (signup salt req w).2 in
  (signup salt req w).1 = Redirect ep_home
  /\ length (load_users w1) = S (length (load_users w))
  /\ forall (req' : Request) (w' : World),
       load_users w' = load_users w1 ->
       method req' = POST ->
       form req' !! "email" = Some email ->
       form req' !! "password" = Some password ->
       (login req' w').1 = Redirect ep_home
       /\ is_Some (session (login req' w').2)
       /\ ((forall u, u ∈ load_users w -> ~ same_email email u) ->
           session (login req' w').2
           = Some {| s_name := name; s_email := Py.lower email |}).
Proof.
  intros Hm Hn He Hp Hfree w1. subst w1.
  rewrite (signup_post salt req w name email password Hm Hn He Hp).
  apply email_taken_false in Hfree. rewrite Hfree. simpl.
  split; [done|]. split.
  { autorewrite with stores. rewrite length_app. simpl. lia. }
  intros req' w' Hstore Hm' He' Hp'.
  rewrite (login_post check_password_hash req' w' email password Hm' He' Hp').
  rewrite Hstore. autorewrite with stores. rewrite find_user_app. simpl.
  rewrite lower_idempotent, String.eqb_refl, check_generate. simpl.
  destruct (find_user _ _ _ (load_users w)) as [u|] eqn:Hfind; simpl.
  - split; [done|]. split; [by eexists|]. intros Habsent. exfalso.
    apply find_user_Some in Hfind as (Hin & Hemail & _).
    by apply (Habsent u Hin).
  - split; [done|]. split; [by eexists|]. done.
Qed.

End Signup.

(** C2. The store holds [Bob@x.com], written with a capital, and a signup
    arrives for [bob@x.com]: the email is present up to case, yet the
    signup is accepted, a second user is appended and persisted, and a
    session is opened for it. *)
Theorem signup_duplicate_accepted_on_capitalised_store
    (generate_password_hash : string -> string -> string) (salt : string) :
  let stored :=
    {| u_name := "Bob"; u_email := "Bob@x.com"; u_password := "s1$hunter2" |} in
  let w := Sample.anonymous [stored] in
  let req :=
    Sample.post [("name", "Eve"); ("email", "bob@x.com"); ("password", "pw")] in
  (exists u, u ∈ load_users w /\ same_email "bob@x.com" u)
  /\ signup generate_password_hash salt req w
     = (Redirect ep_home,
        {| users_file :=
             Some [stored;
                   {| u_name := "Eve"; u_email := "bob@x.com";
                      u_password := generate_password_hash salt "pw" |}];
           history_files := ∅;
           session := Some {| s_name := "Eve"; s_email := "bob@x.com" |} |}).
Proof.
  intros stored w req. split; [|reflexivity].
  exists stored. split; [left | reflexivity].
Qed.

Lemma signup_then_login_witness :
  let req :=
    Sample.post [("name", "Eve"); ("email", "Eve@X.com"); ("password", "pw")] in
  let w := Sample.anonymous [Sample.bob] in
  let w1 := (signup Sample.generate "s2" req w).2 in
  (signup Sample.generate "s2" req w).1 = Redirect ep_home
  /\ length (load_users w1) = S (length (load_users w))
  /\ forall (req' : Request) (w' : World),
       load_users w' = load_users w1 ->
       method req' = POST ->
       form req' !! "email" = Some "Eve@X.com" ->
       form req' !! "password" = Some "pw" ->
       (login Sample.check req' w').1 = Redirect ep_home
       /\ is_Some (session (login Sample.check req' w').2)
       /\ ((forall u, u ∈ load_users w -> ~ same_email "Eve@X.com" u) ->
           session (login Sample.check req' w').2
           = Some {| s_name := "Eve"; s_email := Py.lower "Eve@X.com" |}).
Proof.
  intros req w.
  apply (signup_then_login Sample.generate Sample.check);
    try reflexivity.
  - apply sample_check_generate.
  - intros u ->%list_elem_of_singleton. discriminate.
Defined.

(** *** Sending a message *)

Lemma find_chat_None (chat_id : string) (history : list Chat) :
  find_chat chat_id history = None <->
  forall c, c ∈ history -> c_id c ≠ chat_id.
Proof.
  induction history as [|d history IH]; simpl.
  - split; [|done]. intros _ c Hc. by apply elem_of_nil in Hc.
  - destruct (String.eqb_spec (c_id d) chat_id) as [He|He].
    + split; [discriminate|]. intros H. exfalso. apply (H d); [left | done].
    + rewrite IH. split.
      * intros H c [->|Hc]%elem_of_cons; [done | by apply H].
      * intros H c Hc. apply H. by right.
Qed.

Lemma find_chat_Some (chat_id : string) (history : list Chat) (c : Chat) :
  find_chat chat_id history = Some c ->
  c_id c = chat_id
  /\ exists before after,
       history = before ++ c :: after /\ find_chat chat_id before = None.
Proof.
  induction history as [|d history IH]; simpl; [discriminate|].
  destruct (String.eqb_spec (c_id d) chat_id) as [He|He].
  - intros [= <-]. split; [done|]. by exists [], history.
  - intros H. destruct (IH H) as (Hid & before & after & -> & Hnone).
    split; [done|]. exists (d :: before), after. split; [done|].
    simpl. by destruct (String.eqb_spec (c_id d) chat_id).
Qed.

Lemma send_loop_absent (chat_id user_input bot_reply : string)
    (history : list Chat) :
  find_chat chat_id history = None ->
  send_loop chat_id user_input bot_reply history = history.
Proof.
  induction history as [|d history IH]; simpl; [done|].
  destruct (String.eqb (c_id d) chat_id); [discriminate|].
  intros H. by rewrite IH.
Qed.

Lemma send_loop_at (chat_id user_input bot_reply : string)
    (before after : list Chat) (c : Chat) :
  find_chat chat_id before = None ->
  c_id c = chat_id ->
  send_loop chat_id user_input bot_reply (before ++ c :: after)
  = before ++ append_message user_input bot_reply c :: after.
Proof.
  intros Hnone Hid.
  induction before as [|d before IH]; simpl in *.
  - by rewrite Hid, String.eqb_refl.
  - destruct (String.eqb (c_id d) chat_id); [discriminate|].
    by rewrite IH.
Qed.

Lemma find_chat_send_loop (chat_id target user_input bot_reply : string)
    (history : list Chat) :
  find_chat chat_id (send_loop target user_input bot_reply history)
  = if String.eqb target chat_id
    then append_message user_input bot_reply <$> find_chat chat_id history
    else find_chat chat_id history.
Proof.
  induction history as [|d history IH]; simpl.
  - by destruct (String.eqb target chat_id).
  - destruct (String.eqb_spec (c_id d) target) as [Hd|Hd]; simpl.
    + destruct (String.eqb_spec target chat_id) as [Ht|Ht].
      * by rewrite Hd, Ht, String.eqb_refl.
      * destruct (String.eqb_spec (c_id d) chat_id); [congruence | done].
    + rewrite IH.
      destruct (String.eqb_spec target chat_id) as [Ht|Ht];
        destruct (String.eqb_spec (c_id d) chat_id); try done; congruence.
Qed.

Lemma send_logged_in (chat_id : string) (outcome : Completion)
    (req : Request) (w : World) (user_input : string) :
  is_Some (session w) ->
  form req !! "msg" = Some user_input ->
  send chat_id outcome req w
  = (Redirect (ep_chat chat_id),
     save_history
       (send_loop chat_id user_input (bot_reply_of outcome) (load_history w))
       w).
Proof. intros [usr Hs] Hmsg. unfold send. by rewrite Hs, Hmsg. Qed.

Lemma session_send (chat_id : string) (outcome : Completion) (req : Request)
    (w : World) :
  session (send chat_id outcome req w).2 = session w.
Proof.
  unfold send. destruct (session w) eqn:Hs; [|done].
  by destruct (form req !! "msg").
Qed.

(** What one [send] does to the chat that [get_chat_by_id] returns for
    any id: nothing, or [append_message] when the ids agree. *)
Lemma get_chat_by_id_send (chat_id target : string) (outcome : Completion)
    (req : Request) (w : World) :
  get_chat_by_id chat_id (send target outcome req w).2
  = get_chat_by_id chat_id w
  \/ exists user_input bot_reply,
       get_chat_by_id chat_id (send target outcome req w).2
       = append_message user_input bot_reply <$> get_chat_by_id chat_id w.
Proof.
  unfold send. destruct (session w) as [usr|]; [|by left].
  destruct (form req !! "msg") as [user_input|]; [|by left].
  unfold get_chat_by_id; simpl. rewrite load_history_save_history.
  rewrite find_chat_send_loop. destruct (String.eqb target chat_id); eauto.
Qed.

Lemma derive_title_default (user_input : string) :
  derive_title user_input = "New Chat" -> user_input = "New Chat".
Proof.
  unfold derive_title.
  destruct (Nat.ltb_spec 20 (String.length user_input)) as [Hlong|]; [|done].
  intros H. apply (f_equal String.length) in H.
  rewrite string_length_app, length_slice_to in H by lia. discriminate.
Qed.

(** A title other than the default survives every run of sends. *)
Lemma sends_keep_title (later : list (string * Completion * Request))
    (chat_id : string) (w : World) (c : Chat) :
  get_chat_by_id chat_id w = Some c ->
  c_title c ≠ "New Chat" ->
  c_title <$> get_chat_by_id chat_id (sends later w) = Some (c_title c).
Proof.
  revert w c. induction later as [|[[target outcome] req] later IH];
    intros w c Hget Htitle; simpl.
  - by rewrite Hget.
  - destruct (get_chat_by_id_send chat_id target outcome req w)
      as [Hsame|(user_input & bot_reply & Hupd)].
    + apply IH; [by rewrite Hsame | done].
    + rewrite Hget in Hupd; simpl in Hupd.
      rewrite (IH _ _ Hupd); simpl.
      * by destruct (String.eqb_spec (c_title c) "New Chat").
      * by destruct (String.eqb_spec (c_title c) "New Chat").
Qed.

(** C3, as the code has it.  A send to a chat whose title is the default
    sets the title to the message when it has at most 20 characters, and
    to its first 20 characters followed by three dots when it is longer.
    A send to a chat whose title is not the default keeps the title; so a
    title set by a first send whose message is not the default title
    itself is kept by every later run of sends. *)
Theorem send_derives_title_once (chat_id : string) (outcome : Completion)
    (req : Request) (w : World) (user_input : string) (c : Chat) :
  is_Some (session w) ->
  form req !! "msg" = Some user_input ->
  get_chat_by_id chat_id w = Some c ->
  let w1 := (send chat_id outcome req w).2 in
  (c_title c = "New Chat" ->
     (String.length user_input <= 20 ->
        c_title <$> get_chat_by_id chat_id w1 = Some user_input)
     /\ (20 < String.length user_input ->
        c_title <$> get_chat_by_id chat_id w1
        = Some (Py.slice_to 20 user_input +:+ "...")))
  /\ (c_title c ≠ "New Chat" ->
      c_title <$> get_chat_by_id chat_id w1 = Some (c_title c))
  /\ (c_title c = "New Chat" -> user_input ≠ "New Chat" ->
      forall later : list (string * Completion * Request),
        c_title <$> get_chat_by_id chat_id (sends later w1)
        = c_title <$> get_chat_by_id chat_id w1).
Proof.
  intros Hs Hmsg Hget w1. subst w1.
  rewrite (send_logged_in chat_id outcome req w user_input Hs Hmsg).
  assert (get_chat_by_id chat_id
            (save_history
               (send_loop chat_id user_input (bot_reply_of outcome)
                  (load_history w)) w)
          = Some (append_message user_input (bot_reply_of outcome) c)) as Hnew.
  { unfold get_chat_by_id in *. rewrite load_history_save_history.
    by rewrite find_chat_send_loop, String.eqb_refl, Hget. }
  cbn [snd]. split; [|split].
  - intros Hdefault. rewrite Hnew; simpl. rewrite Hdefault; simpl.
    unfold derive_title. split; intros Hlen.
    + by destruct (Nat.ltb_spec 20 (String.length user_input)); [lia|].
    + by destruct (Nat.ltb_spec 20 (String.length user_input)); [|lia].
  - intros Hset. rewrite Hnew; simpl.
    by destruct (String.eqb_spec (c_title c) "New Chat").
  - intros Hdefault Hinput later.
    rewrite (sends_keep_title later chat_id _ _ Hnew); [by rewrite Hnew|].
    simpl. rewrite Hdefault; simpl.
    intros Htitle. by apply Hinput, derive_title_default.
Qed.

Lemma send_derives_title_once_witness :
  let w := Sample.world_of [] [Sample.fresh_chat] in
  let req := Sample.post [("msg", "Hello")] in
  let w1 := (send "abcd1234" (Replied "Hi there") req w).2 in
  (c_title Sample.fresh_chat = "New Chat" ->
     (String.length "Hello" <= 20 ->
        c_title <$> get_chat_by_id "abcd1234" w1 = Some "Hello")
     /\ (20 < String.length "Hello" ->
        c_title <$> get_chat_by_id "abcd1234" w1
        = Some (Py.slice_to 20 "Hello" +:+ "...")))
  /\ (c_title Sample.fresh_chat ≠ "New Chat" ->
      c_title <$> get_chat_by_id "abcd1234" w1
      = Some (c_title Sample.fresh_chat))
  /\ (c_title Sample.fresh_chat = "New Chat" -> "Hello" ≠ "New Chat" ->
      forall later : list (string * Completion * Request),
        c_title <$> get_chat_by_id "abcd1234" (sends later w1)
        = c_title <$> get_chat_by_id "abcd1234" w1).
Proof.
  intros w req.
  apply (send_derives_title_once "abcd1234" (Replied "Hi there") req w
           "Hello" Sample.fresh_chat).
  - by eexists.
  - reflexivity.
  - reflexivity.
Defined.

(** Counterexample to C3 as the specification words it: the first send to
    a chat with the default title carries the message [New Chat], which
    becomes the title; the second send then derives the title again. *)
Lemma title_derived_twice :
  let w := Sample.world_of [] [Sample.fresh_chat] in
  let w1 :=
    (send "abcd1234" (Replied "Hi") (Sample.post [("msg", "New Chat")]) w).2 in
  let w2 :=
    (send "abcd1234" (Replied "Hi") (Sample.post [("msg", "Hello")]) w1).2 in
  c_title <$> get_chat_by_id "abcd1234" w = Some "New Chat"
  /\ c_title <$> get_chat_by_id "abcd1234" w1 = Some "New Chat"
  /\ c_title <$> get_chat_by_id "abcd1234" w2 = Some "Hello"
  /\ length <$> (c_messages <$> get_chat_by_id "abcd1234" w2) = Some 2.
Proof. vm_compute. done. Qed.

(** C4. The completion call raises during a send to an existing chat: the
    request is still answered by the redirect to the chat, and the history
    that is persisted is the old one with that chat, the first of its id,
    extended by exactly one pair: the user's text and a bot text made of
    the error marker and the description of the exception.  The other
    chats and the user store are as before. *)
Theorem send_failure_appends_error_reply (chat_id description : string)
    (req : Request) (w : World) (user_input : string) (c : Chat) :
  is_Some (session w) ->
  form req !! "msg" = Some user_input ->
  get_chat_by_id chat_id w = Some c ->
  let r := send chat_id (Raised description) req w in
  r.1 = Redirect (ep_chat chat_id)
  /\ users_file r.2 = users_file w
  /\ exists before after c',
       load_history w = before ++ c :: after
       /\ find_chat chat_id before = None
       /\ load_history r.2 = before ++ c' :: after
       /\ get_chat_by_id chat_id r.2 = Some c'
       /\ c_id c' = c_id c
       /\ c_messages c'
          = c_messages c
            ++ [{| m_user := user_input;
                   m_bot := error_prefix +:+ description |}].
Proof.
  intros Hs Hmsg Hget r. subst r.
  rewrite (send_logged_in chat_id _ req w user_input Hs Hmsg). cbn [fst snd].
  split; [done|]. split; [done|].
  unfold get_chat_by_id in *. rewrite load_history_save_history.
  destruct (find_chat_Some _ _ _ Hget)
    as (Hid & before & after & Hsplit & Hnone).
  exists before, after,
    (append_message user_input (bot_reply_of (Raised description)) c).
  rewrite find_chat_send_loop, String.eqb_refl, Hget, Hsplit.
  rewrite (send_loop_at _ _ _ _ _ _ Hnone Hid). done.
Qed.

Lemma send_failure_appends_error_reply_witness :
  let w := Sample.world_of [] [Sample.titled_chat] in
  let req := Sample.post [("msg", "Are you there?")] in
  let r := send "abcd1234" (Raised "503 service unavailable") req w in
  r.1 = Redirect (ep_chat "abcd1234")
  /\ users_file r.2 = users_file w
  /\ exists before after c',
       load_history w = before ++ Sample.titled_chat :: after
       /\ find_chat "abcd1234" before = None
       /\ load_history r.2 = before ++ c' :: after
       /\ get_chat_by_id "abcd1234" r.2 = Some c'
       /\ c_id c' = c_id Sample.titled_chat
       /\ c_messages c'
          = c_messages Sample.titled_chat
            ++ [{| m_user := "Are you there?";
                   m_bot := error_prefix +:+ "503 service unavailable" |}].
Proof.
  intros w req.
  apply (send_failure_appends_error_reply "abcd1234"
           "503 service unavailable" req w "Are you there?"
           Sample.titled_chat).
  - by eexists.
  - reflexivity.
  - reflexivity.
Defined.

(** C10. A send whose chat id is the id of no chat of the logged-in user
    leaves the history that is persisted equal to the one before; the
    history files of other names, the user store and the session are
    untouched as well. *)
Theorem send_unknown_chat_keeps_history (chat_id : string)
    (outcome : Completion) (req : Request) (w : World) :
  is_Some (session w) ->
  (forall c, c ∈ load_history w -> c_id c ≠ chat_id) ->
  let w1 := (send chat_id outcome req w).2 in
  load_history w1 = load_history w
  /\ users_file w1 = users_file w
  /\ session w1 = session w
  /\ forall filename, filename ≠ get_history_file w ->
       history_files w1 !! filename = history_files w !! filename.
Proof.
  intros [usr Hs] Habsent%find_chat_None w1. subst w1.
  unfold send. rewrite Hs. destruct (form req !! "msg") as [user_input|].
  - cbn [snd]. rewrite load_history_save_history.
    rewrite send_loop_absent by done.
    repeat split; [done|]. intros filename Hne.
    by apply history_files_save_history_ne.
  - done.
Qed.

Lemma send_unknown_chat_keeps_history_witness :
  let w := Sample.world_of [Sample.bob] [Sample.titled_chat] in
  let req := Sample.post [("msg", "Hello")] in
  let w1 := (send "ffff0000" (Replied "Hi") req w).2 in
  load_history w1 = load_history w
  /\ users_file w1 = users_file w
  /\ session w1 = session w
  /\ forall filename, filename ≠ get_history_file w ->
       history_files w1 !! filename = history_files w !! filename.
Proof.
  intros w req.
  apply (send_unknown_chat_keeps_history "ffff0000" (Replied "Hi") req w).
  - by eexists.
  - intros c ->%list_elem_of_singleton. discriminate.
Defined.

(** *** Creating and deleting chats *)

Lemma find_chat_app (chat_id : string) (history more : list Chat) :
  find_chat chat_id (history ++ more)
  = match find_chat chat_id history with
    | Some c => Some c
    | None => find_chat chat_id more
    end.
Proof.
  induction history as [|d history IH]; simpl; [reflexivity|].
  by destruct (String.eqb (c_id d) chat_id).
Qed.

Lemma create_new_chat_eq (uuid4 : string) (w : World) :
  create_new_chat uuid4 w
  = (Py.slice_to 8 uuid4,
     save_history
       (load_history w
        ++ [{| c_id := Py.slice_to 8 uuid4; c_title := "New Chat";
               c_messages := [] |}]) w).
Proof. reflexivity. Qed.

(** C7, as the code has it.  [create_new_chat] returns the first eight
    characters of the uuid and appends a chat with that id, the default
    title and no messages at the end of the history; when no chat of the
    history had that id before, [get_chat_by_id] with the returned id
    returns this new chat. *)
Theorem create_then_get (uuid4 : string) (w : World) :
  (forall c, c ∈ load_history w -> c_id c ≠ Py.slice_to 8 uuid4) ->
  let r := create_new_chat uuid4 w in
  let new_chat :=
    {| c_id := r.1; c_title := "New Chat"; c_messages := [] |} in
  r.1 = Py.slice_to 8 uuid4
  /\ load_history r.2 = load_history w ++ [new_chat]
  /\ get_chat_by_id r.1 r.2 = Some new_chat.
Proof.
  intros Hfresh%find_chat_None r new_chat. subst r new_chat.
  rewrite create_new_chat_eq. cbn [fst snd].
  unfold get_chat_by_id. rewrite load_history_save_history.
  split; [done|]. split; [done|].
  rewrite find_chat_app, Hfresh. simpl. by rewrite String.eqb_refl.
Qed.

Lemma create_then_get_witness :
  let w := Sample.world_of [] [Sample.titled_chat] in
  let r := create_new_chat "0f8e7d6c-5b4a-4392-8171-6f5e4d3c2b1a" w in
  let new_chat :=
    {| c_id := r.1; c_title := "New Chat"; c_messages := [] |} in
  r.1 = Py.slice_to 8 "0f8e7d6c-5b4a-4392-8171-6f5e4d3c2b1a"
  /\ load_history r.2 = load_history w ++ [new_chat]
  /\ get_chat_by_id r.1 r.2 = Some new_chat.
Proof.
  intros w.
  apply (create_then_get "0f8e7d6c-5b4a-4392-8171-6f5e4d3c2b1a" w).
  intros c ->%list_elem_of_singleton. discriminate.
Defined.

(** Counterexample to C7 as the specification words it: the history holds
    a chat titled [Hi] with one message, and the uuid starts with the id
    of that chat; the fetch by the returned id gives the old chat and not
    the new one, which sits at the end of the history. *)
Lemma create_then_get_collision :
  let w := Sample.world_of [] [Sample.titled_chat] in
  let r := create_new_chat "abcd1234-5678-4abc-8def-0123456789ab" w in
  r.1 = "abcd1234"
  /\ get_chat_by_id r.1 r.2 = Some Sample.titled_chat
  /\ c_title <$> get_chat_by_id r.1 r.2 = Some "Hi"
  /\ length <$> (c_messages <$> get_chat_by_id r.1 r.2) = Some 1
  /\ load_history r.2
     = [Sample.titled_chat;
        {| c_id := "abcd1234"; c_title := "New Chat"; c_messages := [] |}].
Proof. vm_compute. done. Qed.

(** C5. The history of a logged-in user holds exactly one chat.  Deleting
    it persists the empty history and redirects home; home then creates a
    chat, and the history holds exactly that one chat, with the default
    title and no messages. *)
Theorem delete_only_chat_then_home (uuid4 : string) (w : World) (c : Chat) :
  is_Some (session w) ->
  load_history w = [c] ->
  let deleted := delete_chat (c_id c) w in
  let visited := home uuid4 deleted.2 in
  deleted.1 = Redirect ep_home
  /\ load_history deleted.2 = []
  /\ visited.1 = Redirect (ep_chat (Py.slice_to 8 uuid4))
  /\ load_history visited.2
     = [{| c_id := Py.slice_to 8 uuid4; c_title := "New Chat";
           c_messages := [] |}].
Proof.
  intros [usr Hs] Hone deleted visited. subst visited deleted.
  unfold delete_chat. rewrite Hs, Hone. simpl.
  rewrite String.eqb_refl. simpl.
  unfold home. rewrite session_save_history, Hs.
  rewrite load_history_save_history. simpl.
  by rewrite !load_history_save_history.
Qed.

Lemma delete_only_chat_then_home_witness :
  let w := Sample.world_of [Sample.bob] [Sample.titled_chat] in
  let uuid4 := "0f8e7d6c-5b4a-4392-8171-6f5e4d3c2b1a" in
  let deleted := delete_chat "abcd1234" w in
  let visited := home uuid4 deleted.2 in
  deleted.1 = Redirect ep_home
  /\ load_history deleted.2 = []
  /\ visited.1 = Redirect (ep_chat (Py.slice_to 8 uuid4))
  /\ load_history visited.2
     = [{| c_id := Py.slice_to 8 uuid4; c_title := "New Chat";
           c_messages := [] |}].
Proof.
  intros w uuid4.
  apply (delete_only_chat_then_home uuid4 w Sample.titled_chat).
  - by eexists.
  - reflexivity.
Defined.

(** *** The login gate *)

(** C8. Without a user in the session, each of home, chat view, send,
    new chat and delete answers with the redirect to signup and returns
    the world it was given: user store and history files are unchanged. *)
Theorem anonymous_redirected_to_signup (w : World) :
  session w = None ->
  forall (chat_id uuid4 : string) (outcome : Completion) (req : Request),
    home uuid4 w = (Redirect ep_signup, w)
    /\ chat chat_id w = (Redirect ep_signup, w)
    /\ send chat_id outcome req w = (Redirect ep_signup, w)
    /\ new_chat uuid4 w = (Redirect ep_signup, w)
    /\ delete_chat chat_id w = (Redirect ep_signup, w).
Proof.
  intros Hs chat_id uuid4 outcome req.
  unfold home, chat, send, new_chat, delete_chat. by rewrite Hs.
Qed.

Lemma anonymous_redirected_to_signup_witness :
  let w := Sample.anonymous [Sample.bob] in
  let uuid4 := "0f8e7d6c-5b4a-4392-8171-6f5e4d3c2b1a" in
  let req := Sample.post [("msg", "Hello")] in
  home uuid4 w = (Redirect ep_signup, w)
  /\ chat "abcd1234" w = (Redirect ep_signup, w)
  /\ send "abcd1234" (Replied "Hi") req w = (Redirect ep_signup, w)
  /\ new_chat uuid4 w = (Redirect ep_signup, w)
  /\ delete_chat "abcd1234" w = (Redirect ep_signup, w).
Proof.
  intros w uuid4 req.
  apply (anonymous_redirected_to_signup w). reflexivity.
Defined.

(** ** Further properties of the code *)

(** *** Signup and the user store *)

(** A signup request with its three fields is accepted exactly when its
    lowercased email equals no stored email as it is written.  An accepted
    signup appends one user, with the lowercased email and the generated
    hash, after the users that were stored, opens the session of that user
    and touches no history file; a refused one returns the inline text and
    changes nothing. *)
Theorem signup_accepted_iff
    (generate_password_hash : string -> string -> string)
    (salt : string) (req : Request) (w : World)
    (name email password : string) :
  method req = POST ->
  form req !! "name" = Some name ->
  form req !! "email" = Some email ->
  form req !! "password" = Some password ->
  let r := signup generate_password_hash salt req w in
  (r.1 = Redirect ep_home <->
   forall u, u ∈ load_users w -> u_email u ≠ Py.lower email)
  /\ (r.1 = Redirect ep_home ->
      load_users r.2
      = load_users w
        ++ [{| u_name := name; u_email := Py.lower email;
               u_password := generate_password_hash salt password |}]
      /\ session r.2 = Some {| s_name := name; s_email := Py.lower email |}
      /\ history_files r.2 = history_files w)
  /\ (r.1 ≠ Redirect ep_home -> r = (Body email_registered_msg, w)).
Proof.
  intros Hm Hn He Hp r. subst r.
  rewrite (signup_post generate_password_hash salt req w name email password
             Hm Hn He Hp).
  rewrite <- email_taken_false.
  destruct (email_taken (Py.lower email) (load_users w)); simpl.
  - split; [split; discriminate|]. split; [discriminate | done].
  - split; [done|]. split; [done|]. by intros [].
Qed.

Lemma signup_accepted_iff_witness :
  let req :=
    Sample.post [("name", "Eve"); ("email", "Eve@X.com"); ("password", "pw")] in
  let w := Sample.anonymous [Sample.bob] in
  let r := signup Sample.generate "s2" req w in
  (r.1 = Redirect ep_home <->
   forall u, u ∈ load_users w -> u_email u ≠ Py.lower "Eve@X.com")
  /\ (r.1 = Redirect ep_home ->
      load_users r.2
      = load_users w
        ++ [{| u_name := "Eve"; u_email := Py.lower "Eve@X.com";
               u_password := Sample.generate "s2" "pw" |}]
      /\ session r.2
         = Some {| s_name := "Eve"; s_email := Py.lower "Eve@X.com" |}
      /\ history_files r.2 = history_files w)
  /\ (r.1 ≠ Redirect ep_home -> r = (Body email_registered_msg, w)).
Proof.
  intros req w.
  apply (signup_accepted_iff Sample.generate "s2" req w "Eve" "Eve@X.com"
           "pw"); reflexivity.
Defined.

(** What a signup does to the list of users: nothing, or one user more,
    whose email is lowercased and was not stored. *)
Lemma signup_users (generate_password_hash : string -> string -> string)
    (salt : string) (req : Request) (w : World) :
  load_users (signup generate_password_hash salt req w).2 = load_users w
  \/ exists new_user,
       load_users (signup generate_password_hash salt req w).2
       = load_users w ++ [new_user]
       /\ Py.lower (u_email new_user) = u_email new_user
       /\ email_taken (u_email new_user) (load_users w) = false.
Proof.
  unfold signup. destruct (method req); try by left.
  destruct (form req !! "name") as [name|],
    (form req !! "email") as [email|],
    (form req !! "password") as [password|]; try by left.
  destruct (email_taken _ _) eqn:Htaken; [by left|]. right.
  eexists. split; [reflexivity|]. simpl.
  split; [apply lower_idempotent | done].
Qed.

Section RoutesAndUsers.

Variable generate_password_hash : string -> string -> string.
Variable check_password_hash : string -> string -> bool.

#[local] Abbreviation dispatch :=
  (dispatch generate_password_hash check_password_hash).
#[local] Abbreviation serve :=
  (serve generate_password_hash check_password_hash).

Lemma users_file_dispatch (c : Call) (w : World) :
  (forall salt req, c ≠ call_signup salt req) ->
  users_file (dispatch c w).2 = users_file w.
Proof.
  intros Hc. destruct c; simpl.
  - by destruct (Hc salt req).
  - unfold login. destruct (method req); try done.
    destruct (form req !! "email"), (form req !! "password"); try done.
    by destruct (find_user _ _ _ _).
  - done.
  - unfold home. destruct (session w); [|done].
    by destruct (last (load_history w)).
  - unfold chat. destruct (session w); [|done].
    by destruct (get_chat_by_id chat_id w).
  - unfold send. destruct (session w); [|done].
    by destruct (form req !! "msg").
  - unfold new_chat. by destruct (session w).
  - unfold delete_chat. destruct (session w); [|done].
    by destruct (last _).
Qed.

(** Of all the routes only signup writes [users.json]: every other call
    leaves the file as it was, absent when it was absent. *)
Theorem only_signup_writes_users (c : Call) (w : World) :
  (forall salt req, c ≠ call_signup salt req) ->
  users_file (dispatch c w).2 = users_file w.
Proof. apply users_file_dispatch. Qed.

Lemma dispatch_users (c : Call) (w : World) :
  load_users (dispatch c w).2 = load_users w
  \/ exists new_user,
       load_users (dispatch c w).2 = load_users w ++ [new_user]
       /\ Py.lower (u_email new_user) = u_email new_user
       /\ email_taken (u_email new_user) (load_users w) = false.
Proof.
  assert ((exists salt req, c = call_signup salt req)
          \/ forall salt req, c ≠ call_signup salt req) as [Hc|Hc].
  { destruct c; eauto; by right. }
  - destruct Hc as (salt & req & ->). apply signup_users.
  - left. unfold load_users. by rewrite users_file_dispatch.
Qed.

Lemma serve_users_shape (calls : list Call) (w : World) :
  emails_lowercased (load_users w) ->
  emails_distinct (load_users w) ->
  emails_lowercased (load_users (serve calls w))
  /\ emails_distinct (load_users (serve calls w)).
Proof.
  revert w. induction calls as [|c calls IH]; intros w Hlow Hdis; [done|].
  change (emails_lowercased (load_users (serve calls (dispatch c w).2))
          /\ emails_distinct (load_users (serve calls (dispatch c w).2))).
  destruct (dispatch_users c w) as [Heq|(u & Heq & Hu & Hfree)];
    apply IH; rewrite Heq; try done.
  - apply Forall_app. split; [done|]. by constructor.
  - unfold emails_distinct. rewrite map_app. apply NoDup_app.
    split; [done|]. split; [|apply NoDup_singleton].
    intros e He ->%list_elem_of_singleton.
    apply list_elem_of_fmap in He as (v & Hv & Hin).
    rewrite email_taken_false in Hfree. apply (Hfree v Hin).
    unfold emails_lowercased in Hlow. rewrite Forall_forall in Hlow.
    rewrite <- (Hlow v Hin). congruence.
Qed.

(** The user store keeps its shape through every run of calls: when all
    stored emails are lowercased and no two of them agree up to case,
    the same holds after the run. *)
Theorem serve_keeps_emails_lowercased_distinct (calls : list Call)
    (w : World) :
  emails_lowercased (load_users w) ->
  emails_distinct (load_users w) ->
  emails_lowercased (load_users (serve calls w))
  /\ emails_distinct (load_users (serve calls w)).
Proof. apply serve_users_shape. Qed.

(** On every world that a run of calls builds from a fresh installation,
    a signup whose email is stored up to case is refused with the inline
    text and changes nothing. *)
Theorem signup_duplicate_refused_after_serve (calls : list Call)
    (salt : string) (req : Request) (name email password : string) :
  let w := serve calls empty_world in
  method req = POST ->
  form req !! "name" = Some name ->
  form req !! "email" = Some email ->
  form req !! "password" = Some password ->
  (exists u, u ∈ load_users w /\ same_email email u) ->
  signup generate_password_hash salt req w = (Body email_registered_msg, w).
Proof.
  intros w Hm Hn He Hp Hdup.
  apply (signup_duplicate_refused_lowercased_store generate_password_hash
           salt req w name email password Hm Hn He Hp); [|done].
  apply (serve_users_shape calls empty_world).
  - constructor.
  - constructor.
Qed.

End RoutesAndUsers.

Lemma only_signup_writes_users_witness :
  let c :=
    call_login
      (Sample.post [("email", "bob@x.com"); ("password", "hunter2")]) in
  let w := Sample.anonymous [Sample.bob] in
  users_file (dispatch Sample.generate Sample.check c w).2 = users_file w.
Proof.
  intros c w.
  apply (only_signup_writes_users Sample.generate Sample.check c w).
  intros salt req. discriminate.
Defined.

Lemma serve_keeps_emails_lowercased_distinct_witness :
  let calls :=
    [call_signup "s2"
       (Sample.post
          [("name", "Eve"); ("email", "Eve@X.com"); ("password", "pw")]);
     call_logout] in
  let w := Sample.anonymous [Sample.bob] in
  emails_lowercased (load_users (serve Sample.generate Sample.check calls w))
  /\ emails_distinct (load_users (serve Sample.generate Sample.check calls w)).
Proof.
  intros calls w.
  apply (serve_keeps_emails_lowercased_distinct Sample.generate Sample.check
           calls w).
  - constructor; [reflexivity | constructor].
  - apply NoDup_singleton.
Defined.

Lemma signup_duplicate_refused_after_serve_witness :
  let calls := [Sample.signup_bob; call_logout] in
  let req :=
    Sample.post [("name", "Rob"); ("email", "BOB@x.com"); ("password", "x")] in
  let w := serve Sample.generate Sample.check calls empty_world in
  signup Sample.generate "s3" req w = (Body email_registered_msg, w).
Proof.
  intros calls req.
  apply (signup_duplicate_refused_after_serve Sample.generate Sample.check
           calls "s3" req "Rob" "BOB@x.com" "x"); try reflexivity.
  exists {| u_name := "Bob"; u_email := "bob@x.com";
            u_password := "s1$hunter2" |}.
  split; [left | reflexivity].
Defined.

(** *** Login, logout and missing fields *)

(** When several stored users answer a login, the session is the one of
    the first of them in the order of the file: the login redirects home,
    the session holds the name and the email of that user as they are
    stored, and the user store and the history files are as before. *)
Theorem login_opens_first_match
    (check_password_hash : string -> string -> bool)
    (req : Request) (w : World) (email password : string)
    (before after : list User) (u : User) :
  method req = POST ->
  form req !! "email" = Some email ->
  form req !! "password" = Some password ->
  load_users w = before ++ u :: after ->
  (forall v, v ∈ before ->
     ~ credentials_match check_password_hash email password v) ->
  credentials_match check_password_hash email password u ->
  let r := login check_password_hash req w in
  r = (Redirect ep_home, set_session (Some (session_of u)) w)
  /\ r.1 = Redirect ep_home
  /\ session r.2 = Some {| s_name := u_name u; s_email := u_email u |}
  /\ users_file r.2 = users_file w
  /\ history_files r.2 = history_files w.
Proof.
  intros Hm He Hp Hstore Hbefore [Hemail Hcheck] r. subst r.
  rewrite (login_post check_password_hash req w email password Hm He Hp).
  rewrite Hstore, find_user_app.
  assert (find_user check_password_hash (Py.lower email) password before
          = None) as ->.
  { apply find_user_None. intros v Hv Hmatch. by apply (Hbefore v Hv). }
  simpl. unfold same_email in Hemail.
  by rewrite Hemail, String.eqb_refl, Hcheck.
Qed.

Lemma login_opens_first_match_witness :
  let req := Sample.post [("email", "bob@x.com"); ("password", "hunter2")] in
  let capital :=
    {| u_name := "Robert"; u_email := "Bob@x.com";
       u_password := "s9$hunter2" |} in
  let w := Sample.anonymous [capital; Sample.bob] in
  let r := login Sample.check req w in
  r = (Redirect ep_home, set_session (Some (session_of capital)) w)
  /\ r.1 = Redirect ep_home
  /\ session r.2 = Some {| s_name := "Robert"; s_email := "Bob@x.com" |}
  /\ users_file r.2 = users_file w
  /\ history_files r.2 = history_files w.
Proof.
  intros req capital w.
  apply (login_opens_first_match Sample.check req w "bob@x.com" "hunter2"
           [] [Sample.bob] capital); try reflexivity.
  - intros v Hv. by apply elem_of_nil in Hv.
  - split; reflexivity.
Defined.

(** A POST that lacks a field the view reads is answered by Flask's 400
    and changes nothing: signup reads name, email and password, login
    reads email and password, and send, once the session is checked,
    reads msg before it does anything else. *)
Theorem missing_field_bad_request
    (generate_password_hash : string -> string -> string)
    (check_password_hash : string -> string -> bool)
    (salt chat_id : string) (outcome : Completion) (req : Request)
    (w : World) :
  method req = POST ->
  (form req !! "name" = None \/ form req !! "email" = None
   \/ form req !! "password" = None ->
   signup generate_password_hash salt req w = (BadRequest, w))
  /\ (form req !! "email" = None \/ form req !! "password" = None ->
      login check_password_hash req w = (BadRequest, w))
  /\ (is_Some (session w) -> form req !! "msg" = None ->
      send chat_id outcome req w = (BadRequest, w)).
Proof.
  intros Hm. unfold signup, login, send. rewrite Hm.
  split; [|split].
  - intros [->|[->| ->]]; [done| |].
    + by destruct (form req !! "name").
    + by destruct (form req !! "name"), (form req !! "email").
  - intros [->| ->]; [done|]. by destruct (form req !! "email").
  - intros [usr ->] ->. done.
Qed.

Lemma missing_field_bad_request_witness :
  let req := Sample.post [("email", "bob@x.com")] in
  let w := Sample.world_of [Sample.bob] [Sample.titled_chat] in
  (form req !! "name" = None \/ form req !! "email" = None
   \/ form req !! "password" = None ->
   signup Sample.generate "s1" req w = (BadRequest, w))
  /\ (form req !! "email" = None \/ form req !! "password" = None ->
      login Sample.check req w = (BadRequest, w))
  /\ (is_Some (session w) -> form req !! "msg" = None ->
      send "abcd1234" (Replied "Hi") req w = (BadRequest, w)).
Proof.
  intros req w.
  apply (missing_field_bad_request Sample.generate Sample.check "s1"
           "abcd1234" (Replied "Hi") req w).
  reflexivity.
Defined.

(** Logout answers with the redirect to login and removes the user from
    the session, whatever the session held; the files stay as they are,
    and each of the five chat routes then sends the client to signup. *)
Theorem logout_closes_the_gate (w : World) (chat_id uuid4 : string)
    (outcome : Completion) (req : Request) :
  let w' := (logout w).2 in
  (logout w).1 = Redirect ep_login
  /\ session w' = None
  /\ users_file w' = users_file w
  /\ history_files w' = history_files w
  /\ home uuid4 w' = (Redirect ep_signup, w')
  /\ chat chat_id w' = (Redirect ep_signup, w')
  /\ send chat_id outcome req w' = (Redirect ep_signup, w')
  /\ new_chat uuid4 w' = (Redirect ep_signup, w')
  /\ delete_chat chat_id w' = (Redirect ep_signup, w').
Proof. done. Qed.

(** *** One history file per user name *)

Lemma string_app_inj_r (s t x : string) : s +:+ x = t +:+ x -> s = t.
Proof.
  revert t. induction s as [|c s IH]; intros [|d t] H.
  - done.
  - apply (f_equal String.length) in H.
    rewrite !string_length_app in H. simpl in H. lia.
  - apply (f_equal String.length) in H.
    rewrite !string_length_app in H. simpl in H. lia.
  - simpl in H. injection H as -> H. by rewrite (IH t H).
Qed.

Lemma get_history_file_session (w : World) (usr : SessionUser) :
  session w = Some usr ->
  get_history_file w = "chat_history_" +:+ username_of (s_name usr) +:+ ".json".
Proof. intros Hs. unfold get_history_file. by rewrite Hs. Qed.

Lemma get_history_file_inj (w w' : World) (a b : SessionUser) :
  session w = Some a ->
  session w' = Some b ->
  get_history_file w = get_history_file w' ->
  username_of (s_name a) = username_of (s_name b).
Proof.
  intros Ha Hb. rewrite (get_history_file_session w a Ha).
  rewrite (get_history_file_session w' b Hb).
  intros H. apply String.app_inj in H. by apply string_app_inj_r in H.
Qed.

(** Two users whose display names agree after lowercasing and putting an
    underscore for each space read the same history: what one of them
    finds under an id, and the whole list, is what the other finds. *)
Theorem histories_shared_by_username (a b : SessionUser) (w : World)
    (chat_id : string) :
  username_of (s_name a) = username_of (s_name b) ->
  load_history (set_session (Some b) w) = load_history (set_session (Some a) w)
  /\ get_chat_by_id chat_id (set_session (Some b) w)
     = get_chat_by_id chat_id (set_session (Some a) w).
Proof.
  intros Hname. unfold get_chat_by_id, load_history.
  rewrite (get_history_file_session (set_session (Some a) w) a eq_refl).
  rewrite (get_history_file_session (set_session (Some b) w) b eq_refl).
  by rewrite Hname.
Qed.

Lemma histories_shared_by_username_witness :
  let a := {| s_name := "Bob Smith"; s_email := "bob@x.com" |} in
  let b := {| s_name := "bob_smith"; s_email := "eve@x.com" |} in
  let w := (new_chat "0f8e7d6c-5b4a-4392-8171-6f5e4d3c2b1a"
              (set_session (Some a) empty_world)).2 in
  load_history (set_session (Some b) w) = load_history (set_session (Some a) w)
  /\ get_chat_by_id "0f8e7d6c" (set_session (Some b) w)
     = get_chat_by_id "0f8e7d6c" (set_session (Some a) w).
Proof.
  intros a b w.
  apply (histories_shared_by_username a b w "0f8e7d6c"). reflexivity.
Defined.

(** What a call does to the history files: nothing, or it writes the file
    of the current session with the history it read, changed by one
    creation, one send or one deletion. *)
Lemma dispatch_history_files
    (generate_password_hash : string -> string -> string)
    (check_password_hash : string -> string -> bool)
    (c : Call) (w : World) :
  history_files (dispatch generate_password_hash check_password_hash c w).2
  = history_files w
  \/ exists history,
       history_files
         (dispatch generate_password_hash check_password_hash c w).2
       = <[get_history_file w := history]> (history_files w)
       /\ ((exists uuid4, history = load_history w ++ [blank_chat uuid4])
           \/ (exists chat_id user_input bot_reply,
                 history
                 = send_loop chat_id user_input bot_reply (load_history w))
           \/ (exists chat_id,
                 history = without_chat chat_id (load_history w))).
Proof.
  destruct c; simpl.
  - left. unfold signup. destruct (method req); try done.
    destruct (form req !! "name"), (form req !! "email"),
      (form req !! "password"); try done.
    by destruct (email_taken _ _).
  - left. unfold login. destruct (method req); try done.
    destruct (form req !! "email"), (form req !! "password"); try done.
    by destruct (find_user _ _ _ _).
  - by left.
  - unfold home. destruct (session w); [|by left].
    destruct (last (load_history w)); [by left|].
    right. eexists. split; [reflexivity|]. left. by exists uuid4.
  - left. unfold chat. destruct (session w); [|done].
    by destruct (get_chat_by_id chat_id w).
  - unfold send. destruct (session w); [|by left].
    destruct (form req !! "msg") as [user_input|]; [|by left].
    right. eexists. split; [reflexivity|]. right. left. eauto.
  - unfold new_chat. destruct (session w); [|by left].
    right. eexists. split; [reflexivity|]. left. by exists uuid4.
  - unfold delete_chat. destruct (session w); [|by left].
    right. exists (without_chat chat_id (load_history w)).
    split; [by destruct (last _) | eauto].
Qed.

Lemma session_set_session (usr : option SessionUser) (w : World) :
  session (set_session usr w) = usr.
Proof. reflexivity. Qed.

(** A call made in the session of one user never changes what a user of
    another file name reads: with user names that differ after lowercasing
    and replacing spaces, the history of the second user is the same
    before and after any call of the first. *)
Theorem histories_isolated
    (generate_password_hash : string -> string -> string)
    (check_password_hash : string -> string -> bool)
    (c : Call) (w : World) (a b : SessionUser) :
  session w = Some a ->
  username_of (s_name a) ≠ username_of (s_name b) ->
  load_history
    (set_session (Some b)
       (dispatch generate_password_hash check_password_hash c w).2)
  = load_history (set_session (Some b) w).
Proof.
  intros Ha Hname. unfold load_history.
  rewrite (get_history_file_session (set_session (Some b) w) b eq_refl).
  rewrite (get_history_file_session (set_session (Some b) _) b eq_refl).
  change (history_files (set_session (Some b) ?x)) with (history_files x).
  destruct (dispatch_history_files generate_password_hash
              check_password_hash c w) as [->|(history & -> & _)]; [done|].
  rewrite lookup_insert_ne; [done|].
  rewrite (get_history_file_session w a Ha).
  intros H. apply Hname.
  apply String.app_inj in H. by apply string_app_inj_r in H.
Qed.

Lemma histories_isolated_witness :
  let a := Sample.bob_session in
  let b := {| s_name := "Eve"; s_email := "eve@x.com" |} in
  let w := Sample.world_of [Sample.bob] [Sample.titled_chat] in
  let c := call_delete_chat "abcd1234" in
  load_history
    (set_session (Some b) (dispatch Sample.generate Sample.check c w).2)
  = load_history (set_session (Some b) w).
Proof.
  intros a b w c.
  apply (histories_isolated Sample.generate Sample.check c w a b).
  - reflexivity.
  - discriminate.
Defined.

(** *** Where the redirects of the chat routes lead *)

Lemma find_chat_elem (history : list Chat) (c : Chat) :
  c ∈ history ->
  exists c', find_chat (c_id c) history = Some c' /\ c_id c' = c_id c.
Proof.
  intros Hin. destruct (find_chat (c_id c) history) as [c'|] eqn:Hfind.
  - exists c'. split; [done|]. by apply find_chat_Some in Hfind as [? _].
  - rewrite find_chat_None in Hfind. by destruct (Hfind c Hin).
Qed.

Lemma chat_of_member (w : World) (usr : SessionUser) (c : Chat) :
  session w = Some usr ->
  c ∈ load_history w ->
  exists c',
    chat (c_id c) w = (RenderIndex c' (load_history w) (s_name usr), w)
    /\ c_id c' = c_id c.
Proof.
  intros Hs Hin. destruct (find_chat_elem _ _ Hin) as (c' & Hfind & Hid).
  exists c'. split; [|done]. unfold chat, get_chat_by_id.
  by rewrite Hs, Hfind.
Qed.

Lemma home_new_chat_resolve (uuid4 : string) (w : World)
    (usr : SessionUser) :
  session w = Some usr ->
  (exists chat_id c,
     (home uuid4 w).1 = Redirect (ep_chat chat_id)
     /\ chat chat_id (home uuid4 w).2
        = (RenderIndex c (load_history (home uuid4 w).2) (s_name usr),
           (home uuid4 w).2)
     /\ c_id c = chat_id)
  /\ (exists chat_id c,
        (new_chat uuid4 w).1 = Redirect (ep_chat chat_id)
        /\ chat chat_id (new_chat uuid4 w).2
           = (RenderIndex c (load_history (new_chat uuid4 w).2) (s_name usr),
              (new_chat uuid4 w).2)
        /\ c_id c = chat_id).
Proof.
  intros Hs.
  assert (exists c,
            chat (Py.slice_to 8 uuid4) (create_new_chat uuid4 w).2
            = (RenderIndex c (load_history (create_new_chat uuid4 w).2)
                 (s_name usr), (create_new_chat uuid4 w).2)
            /\ c_id c = Py.slice_to 8 uuid4) as (c & Hview & Hid).
  { apply (chat_of_member _ usr (blank_chat uuid4)); [done|].
    rewrite create_new_chat_eq. cbn [snd].
    rewrite load_history_save_history.
    apply elem_of_app. right. by left. }
  split.
  - unfold home. rewrite Hs.
    destruct (last (load_history w)) as [d|] eqn:Hlast.
    + apply last_Some_elem_of in Hlast.
      destruct (chat_of_member w usr d Hs Hlast) as (c' & Hc' & Hid').
      by exists (c_id d), c'.
    + by exists (Py.slice_to 8 uuid4), c.
  - unfold new_chat. rewrite Hs. by exists (Py.slice_to 8 uuid4), c.
Qed.

(** The redirects of home and of new chat never bounce: for a logged-in
    user each of them names a chat id, and the chat view of that id on the
    world they leave renders the page of a chat with that id, together
    with the whole history and the name of the session. *)
Theorem home_and_new_chat_redirects_resolve (uuid4 : string) (w : World)
    (usr : SessionUser) :
  session w = Some usr ->
  (exists chat_id c,
     (home uuid4 w).1 = Redirect (ep_chat chat_id)
     /\ chat chat_id (home uuid4 w).2
        = (RenderIndex c (load_history (home uuid4 w).2) (s_name usr),
           (home uuid4 w).2)
     /\ c_id c = chat_id)
  /\ (exists chat_id c,
        (new_chat uuid4 w).1 = Redirect (ep_chat chat_id)
        /\ chat chat_id (new_chat uuid4 w).2
           = (RenderIndex c (load_history (new_chat uuid4 w).2) (s_name usr),
              (new_chat uuid4 w).2)
        /\ c_id c = chat_id).
Proof. apply home_new_chat_resolve. Qed.

Lemma home_and_new_chat_redirects_resolve_witness :
  let uuid4 := "0f8e7d6c-5b4a-4392-8171-6f5e4d3c2b1a" in
  let w := Sample.world_of [Sample.bob] [] in
  (exists chat_id c,
     (home uuid4 w).1 = Redirect (ep_chat chat_id)
     /\ chat chat_id (home uuid4 w).2
        = (RenderIndex c (load_history (home uuid4 w).2) "Bob",
           (home uuid4 w).2)
     /\ c_id c = chat_id)
  /\ (exists chat_id c,
        (new_chat uuid4 w).1 = Redirect (ep_chat chat_id)
        /\ chat chat_id (new_chat uuid4 w).2
           = (RenderIndex c (load_history (new_chat uuid4 w).2) "Bob",
              (new_chat uuid4 w).2)
        /\ c_id c = chat_id).
Proof.
  intros uuid4 w.
  apply (home_and_new_chat_redirects_resolve uuid4 w Sample.bob_session).
  reflexivity.
Defined.

(** Home creates at most one chat: a second visit, whatever uuid it would
    draw, gives the response of the first and leaves the world the first
    visit left. *)
Theorem home_twice (uuid4 uuid4' : string) (w : World) :
  home uuid4' (home uuid4 w).2 = home uuid4 w.
Proof.
  unfold home. destruct (session w) as [usr|] eqn:Hs; simpl.
  - destruct (last (load_history w)) as [c|] eqn:Hlast; simpl.
    + by rewrite Hs, Hlast.
    + rewrite Hs, load_history_save_history, last_snoc. done.
  - by rewrite Hs.
Qed.

(** *** Deleting a chat *)

Lemma find_chat_without_chat (chat_id other : string) (history : list Chat) :
  find_chat other (without_chat chat_id history)
  = if String.eqb other chat_id then None else find_chat other history.
Proof.
  induction history as [|d history IH]; simpl.
  - by destruct (String.eqb other chat_id).
  - destruct (String.eqb_spec (c_id d) chat_id) as [Hd|Hd]; simpl.
    + rewrite IH. destruct (String.eqb_spec other chat_id) as [Ho|Ho];
        [done|].
      destruct (String.eqb_spec (c_id d) other); [congruence | done].
    + rewrite IH. destruct (String.eqb_spec other chat_id) as [Ho|Ho].
      * destruct (String.eqb_spec (c_id d) other); [congruence | done].
      * done.
Qed.

Lemma without_chat_absent (chat_id : string) (history : list Chat) :
  (forall c, c ∈ history -> c_id c ≠ chat_id) ->
  without_chat chat_id history = history.
Proof.
  induction history as [|d history IH]; intros Habsent; simpl; [done|].
  destruct (String.eqb_spec (c_id d) chat_id) as [Hd|Hd]; simpl.
  - destruct (Habsent d); [left | done].
  - rewrite IH; [done|]. intros c Hc. apply Habsent. by right.
Qed.

Lemma delete_chat_logged_in (chat_id : string) (w : World) :
  is_Some (session w) ->
  (delete_chat chat_id w).2
  = save_history (without_chat chat_id (load_history w)) w.
Proof.
  intros [usr Hs]. unfold delete_chat. rewrite Hs.
  fold (without_chat chat_id (load_history w)). by destruct (last _).
Qed.

(** Deleting removes every chat of the given id, so that the id is found
    no more, and nothing else: the chat found under any other id is the
    one found before, and the user store is untouched.  When no chat has
    the id, the history is persisted as it was.  The response leads to the
    last chat that remains, or home when none does. *)
Theorem delete_chat_removes_id (chat_id : string) (w : World) :
  is_Some (session w) ->
  let r := delete_chat chat_id w in
  get_chat_by_id chat_id r.2 = None
  /\ (forall other, other ≠ chat_id ->
        get_chat_by_id other r.2 = get_chat_by_id other w)
  /\ ((forall c, c ∈ load_history w -> c_id c ≠ chat_id) ->
      load_history r.2 = load_history w)
  /\ users_file r.2 = users_file w
  /\ r.1 = match last (load_history r.2) with
           | Some c => Redirect (ep_chat (c_id c))
           | None => Redirect ep_home
           end.
Proof.
  intros Hs r. subst r.
  rewrite (delete_chat_logged_in chat_id w Hs).
  unfold get_chat_by_id. rewrite load_history_save_history.
  split; [|split; [|split; [|split]]].
  - by rewrite find_chat_without_chat, String.eqb_refl.
  - intros other Hother. rewrite find_chat_without_chat.
    by destruct (String.eqb_spec other chat_id).
  - apply without_chat_absent.
  - done.
  - destruct Hs as [usr Hs]. unfold delete_chat. rewrite Hs.
    fold (without_chat chat_id (load_history w)).
    by destruct (last _).
Qed.

Lemma delete_chat_removes_id_witness :
  let w := Sample.world_of [Sample.bob]
             [Sample.fresh_chat; Sample.other_chat; Sample.titled_chat] in
  let r := delete_chat "abcd1234" w in
  get_chat_by_id "abcd1234" r.2 = None
  /\ (forall other, other ≠ "abcd1234" ->
        get_chat_by_id other r.2 = get_chat_by_id other w)
  /\ ((forall c, c ∈ load_history w -> c_id c ≠ "abcd1234") ->
      load_history r.2 = load_history w)
  /\ users_file r.2 = users_file w
  /\ r.1 = match last (load_history r.2) with
           | Some c => Redirect (ep_chat (c_id c))
           | None => Redirect ep_home
           end.
Proof.
  intros w.
  apply (delete_chat_removes_id "abcd1234" w). by eexists.
Defined.

(** *** Sending: the reply that is stored *)

Lemma lstrip_split (s : string) :
  exists l, s = l +:+ Py.lstrip s /\ all_space l = true
            /\ starts_with_space (Py.lstrip s) = false.
Proof.
  induction s as [|c s (l & Hs & Hl & Hstart)].
  - by exists "".
  - cbn [Py.lstrip]. destruct (Py.isspace c) eqn:Hc.
    + exists (String c l). split; [|split].
      * change (String c l +:+ ?x) with (String c (l +:+ x)). congruence.
      * cbn [all_space]. by rewrite Hc, Hl.
      * done.
    + exists "". by split; [|split].
Qed.

Lemma rstrip_split (s : string) :
  exists t, s = Py.rstrip s +:+ t /\ all_space t = true
            /\ ends_with_space (Py.rstrip s) = false
            /\ (starts_with_space s = false ->
                starts_with_space (Py.rstrip s) = false).
Proof.
  induction s as [|c s (t & Hs & Ht & Hend & _)].
  - by exists "".
  - cbn [Py.rstrip]. destruct (Py.rstrip s) as [|d kept] eqn:Hkept.
    + change ("" +:+ t) with t in Hs. subst s.
      destruct (Py.isspace c) eqn:Hc.
      * exists (String c t). split; [done|]. cbn [all_space].
        by rewrite Hc, Ht.
      * exists t. by split; [|split; [|split]].
    + exists t. split; [|split; [|split]].
      * change (String c ?x +:+ t) with (String c (x +:+ t)). congruence.
      * done.
      * exact Hend.
      * done.
Qed.

Lemma strip_split (s : string) :
  exists l t, s = l +:+ Py.strip s +:+ t
              /\ all_space l = true /\ all_space t = true
              /\ starts_with_space (Py.strip s) = false
              /\ ends_with_space (Py.strip s) = false.
Proof.
  destruct (lstrip_split s) as (l & Hs & Hl & Hstart).
  destruct (rstrip_split (Py.lstrip s)) as (t & Hs' & Ht & Hend & Hkeep).
  exists l, t. unfold Py.strip. rewrite <- Hs'. auto 10.
Qed.

(** When the completion service replies, a send to an existing chat
    answers with the redirect to the chat and extends that chat by exactly
    one pair: the user's text as it was typed and the reply without its
    leading and trailing whitespace.  The stored reply starts and ends
    with no space, and the reply is the stored one between two runs of
    spaces. *)
Theorem send_reply_stores_stripped_text (chat_id text : string)
    (req : Request) (w : World) (user_input : string) (c : Chat) :
  is_Some (session w) ->
  form req !! "msg" = Some user_input ->
  get_chat_by_id chat_id w = Some c ->
  let r := send chat_id (Replied text) req w in
  r.1 = Redirect (ep_chat chat_id)
  /\ (exists c',
        get_chat_by_id chat_id r.2 = Some c'
        /\ c_messages c'
           = c_messages c
             ++ [{| m_user := user_input; m_bot := Py.strip text |}])
  /\ starts_with_space (Py.strip text) = false
  /\ ends_with_space (Py.strip text) = false
  /\ exists l t, text = l +:+ Py.strip text +:+ t
                 /\ all_space l = true /\ all_space t = true.
Proof.
  intros Hs Hmsg Hget r. subst r.
  rewrite (send_logged_in chat_id _ req w user_input Hs Hmsg). cbn [fst snd].
  split; [done|]. split.
  { unfold get_chat_by_id in *. rewrite load_history_save_history.
    rewrite find_chat_send_loop, String.eqb_refl, Hget. simpl. eauto. }
  destruct (strip_split text) as (l & t & Htext & Hl & Ht & Hstart & Hend).
  eauto 10.
Qed.

Lemma send_reply_stores_stripped_text_witness :
  let text := "  It is sunny today.
" in
  let w := Sample.world_of [] [Sample.titled_chat] in
  let req := Sample.post [("msg", " How is the weather? ")] in
  let r := send "abcd1234" (Replied text) req w in
  r.1 = Redirect (ep_chat "abcd1234")
  /\ (exists c',
        get_chat_by_id "abcd1234" r.2 = Some c'
        /\ c_messages c'
           = c_messages Sample.titled_chat
             ++ [{| m_user := " How is the weather? ";
                    m_bot := Py.strip text |}])
  /\ starts_with_space (Py.strip text) = false
  /\ ends_with_space (Py.strip text) = false
  /\ exists l t, text = l +:+ Py.strip text +:+ t
                 /\ all_space l = true /\ all_space t = true.
Proof.
  intros text w req.
  apply (send_reply_stores_stripped_text "abcd1234" text req w
           " How is the weather? " Sample.titled_chat).
  - by eexists.
  - reflexivity.
  - reflexivity.
Defined.

Lemma map_id_send_loop (chat_id user_input bot_reply : string)
    (history : list Chat) :
  map c_id (send_loop chat_id user_input bot_reply history)
  = map c_id history.
Proof.
  induction history as [|d history IH]; simpl; [done|].
  destruct (String.eqb (c_id d) chat_id); simpl; [done | by rewrite IH].
Qed.

(** A send neither adds nor removes nor reorders chats, and reaches no
    chat but the one of its id: the ids of the history are the same list
    before and after, the chat found under any other id is unchanged, and
    the user store is untouched. *)
Theorem send_keeps_other_chats (chat_id : string) (outcome : Completion)
    (req : Request) (w : World) :
  let r := send chat_id outcome req w in
  map c_id (load_history r.2) = map c_id (load_history w)
  /\ users_file r.2 = users_file w
  /\ forall other, other ≠ chat_id ->
       get_chat_by_id other r.2 = get_chat_by_id other w.
Proof.
  intros r. subst r. unfold send.
  destruct (session w) as [usr|] eqn:Hs; [|done].
  destruct (form req !! "msg") as [user_input|]; [|done]. cbn [snd].
  unfold get_chat_by_id. rewrite load_history_save_history.
  split; [apply map_id_send_loop|]. split; [done|].
  intros other Hother. rewrite find_chat_send_loop.
  by destruct (String.eqb_spec chat_id other).
Qed.

(** *** Runs of sends only append *)

Lemma chat_extends_refl (c : Chat) : chat_extends c c.
Proof. split; [done|]. exists []. by rewrite app_nil_r. Qed.

Lemma chat_extends_trans (c1 c2 c3 : Chat) :
  chat_extends c1 c2 -> chat_extends c2 c3 -> chat_extends c1 c3.
Proof.
  intros [Hid1 Hm1] [Hid2 Hm2]. split; [congruence|].
  by transitivity (c_messages c2).
Qed.

Lemma send_loop_extends (chat_id user_input bot_reply : string)
    (history : list Chat) :
  Forall2 chat_extends history
    (send_loop chat_id user_input bot_reply history).
Proof.
  induction history as [|d history IH]; simpl; [constructor|].
  destruct (String.eqb (c_id d) chat_id).
  - constructor.
    + split; [done|]. simpl. by eexists.
    + apply Forall_Forall2_diag, Forall_forall.
      intros c _. apply chat_extends_refl.
  - constructor; [apply chat_extends_refl | done].
Qed.

(** Through any run of sends the history keeps its chats, in their order
    and with their ids, and each chat keeps the messages it had, in their
    order, before the ones that were added: no send drops or rewrites a
    message. *)
Theorem sends_only_append (later : list (string * Completion * Request))
    (w : World) :
  Forall2 chat_extends (load_history w) (load_history (sends later w)).
Proof.
  revert w. induction later as [|[[chat_id outcome] req] later IH];
    intros w; simpl.
  - apply Forall_Forall2_diag, Forall_forall.
    intros c _. apply chat_extends_refl.
  - apply (Forall2_trans chat_extends chat_extends chat_extends) with
      (load_history (send chat_id outcome req w).2);
      [apply chat_extends_trans | | apply IH].
    unfold send. destruct (session w) as [usr|] eqn:Hs;
      [destruct (form req !! "msg") as [user_input|]|]; cbn [snd].
    + rewrite load_history_save_history. apply send_loop_extends.
    + apply Forall_Forall2_diag, Forall_forall.
      intros c _. apply chat_extends_refl.
    + apply Forall_Forall2_diag, Forall_forall.
      intros c _. apply chat_extends_refl.
Qed.

(** *** The sizes of ids and titles *)

Lemma length_slice_to_le (n : nat) (s : string) :
  String.length (Py.slice_to n s) <= n.
Proof.
  revert s. induction n as [|n IH]; intros [|c s]; simpl; try lia.
  specialize (IH s). lia.
Qed.

Lemma derive_title_length (user_input : string) :
  String.length (derive_title user_input) <= 23.
Proof.
  unfold derive_title.
  destruct (Nat.ltb_spec 20 (String.length user_input)); [|lia].
  rewrite string_length_app. pose proof (length_slice_to_le 20 user_input).
  change (String.length "...") with 3. lia.
Qed.

Lemma send_loop_bounded (chat_id user_input bot_reply : string)
    (history : list Chat) :
  Forall chat_bounded history ->
  Forall chat_bounded (send_loop chat_id user_input bot_reply history).
Proof.
  induction 1 as [|d history [Hid Htitle] Hrest IH]; simpl; [constructor|].
  destruct (String.eqb (c_id d) chat_id); constructor; try done.
  split; [done|]. simpl.
  destruct (String.eqb (c_title d) "New Chat");
    [apply derive_title_length | done].
Qed.

Lemma without_chat_bounded (chat_id : string) (history : list Chat) :
  Forall chat_bounded history ->
  Forall chat_bounded (without_chat chat_id history).
Proof.
  induction 1 as [|d history Hd Hrest IH]; simpl; [constructor|].
  destruct (negb _); [by constructor | done].
Qed.

Lemma load_history_bounded (w : World) :
  histories_bounded w -> Forall chat_bounded (load_history w).
Proof.
  intros Hw. unfold load_history.
  destruct (history_files w !! get_history_file w) as [history|] eqn:Hfile;
    [|constructor].
  apply (map_Forall_lookup_1 _ _ _ _ Hw Hfile).
Qed.

(** Ids and titles stay short through every run of calls: when every
    stored chat has an id of at most 8 characters and a title of at most
    23, which holds when nothing is stored, the same holds after the
    run, in every history file. *)
Theorem serve_keeps_histories_bounded
    (generate_password_hash : string -> string -> string)
    (check_password_hash : string -> string -> bool)
    (calls : list Call) (w : World) :
  histories_bounded w ->
  histories_bounded
    (serve generate_password_hash check_password_hash calls w).
Proof.
  revert w. induction calls as [|c calls IH]; intros w Hw; [done|].
  change (histories_bounded
            (serve generate_password_hash check_password_hash calls
               (dispatch generate_password_hash check_password_hash c w).2)).
  apply IH. unfold histories_bounded.
  pose proof (load_history_bounded w Hw) as Hload.
  destruct (dispatch_history_files generate_password_hash
              check_password_hash c w)
    as [->|(history & -> & Hshape)]; [done|].
  apply map_Forall_insert_2; [|done].
  destruct Hshape as [(uuid4 & ->)|[(chat_id & m & b & ->)|(chat_id & ->)]].
  - apply Forall_app. split; [done|]. constructor; [|constructor].
    split; [apply length_slice_to_le | simpl; lia].
  - by apply send_loop_bounded.
  - by apply without_chat_bounded.
Qed.

Lemma serve_keeps_histories_bounded_witness :
  let calls :=
    [Sample.signup_bob;
     call_home "0f8e7d6c-5b4a-4392-8171-6f5e4d3c2b1a";
     call_send "0f8e7d6c" (Replied "Hi")
       (Sample.post [("msg", "Tell me a long story about the sea")])] in
  histories_bounded (serve Sample.generate Sample.check calls empty_world).
Proof.
  intros calls.
  apply (serve_keeps_histories_bounded Sample.generate Sample.check calls
           empty_world).
  apply map_Forall_empty.
Defined.

(** *** More on the flows between the routes *)

Lemma elem_of_without_chat (chat_id : string) (history : list Chat)
    (c : Chat) :
  c ∈ without_chat chat_id history -> c ∈ history /\ c_id c ≠ chat_id.
Proof.
  unfold without_chat. rewrite !list_elem_of_In, filter_In.
  intros [Hin Hne]. split; [done|].
  intros He. by rewrite He, String.eqb_refl in Hne.
Qed.

(** After a deletion the client is sent home exactly when no chat is left;
    otherwise it is sent to a chat whose id is not the deleted one and
    whose page the chat view then renders. *)
Theorem delete_chat_redirect_resolves (chat_id : string) (w : World)
    (usr : SessionUser) :
  session w = Some usr ->
  let r := delete_chat chat_id w in
  (r.1 = Redirect ep_home /\ load_history r.2 = [])
  \/ exists target c,
       r.1 = Redirect (ep_chat target)
       /\ target ≠ chat_id
       /\ chat target r.2
          = (RenderIndex c (load_history r.2) (s_name usr), r.2)
       /\ c_id c = target.
Proof.
  intros Hs r. subst r.
  pose proof (delete_chat_logged_in chat_id w (ex_intro _ usr Hs)) as Hw.
  unfold delete_chat in *. rewrite Hs in *.
  fold (without_chat chat_id (load_history w)) in *.
  destruct (last (without_chat chat_id (load_history w))) as [d|] eqn:Hlast;
    cbn [fst snd] in *.
  - right. apply last_Some_elem_of in Hlast.
    destruct (elem_of_without_chat _ _ _ Hlast) as [_ Hne].
    destruct (chat_of_member
                (save_history (without_chat chat_id (load_history w)) w)
                usr d) as (c & Hview & Hid).
    + by rewrite session_save_history.
    + by rewrite load_history_save_history.
    + by exists (c_id d), c.
  - left. split; [done|]. rewrite load_history_save_history.
    by apply last_None.
Qed.

Lemma delete_chat_redirect_resolves_witness :
  let w := Sample.world_of [Sample.bob]
             [Sample.other_chat; Sample.titled_chat] in
  let r := delete_chat "abcd1234" w in
  (r.1 = Redirect ep_home /\ load_history r.2 = [])
  \/ exists target c,
       r.1 = Redirect (ep_chat target)
       /\ target ≠ "abcd1234"
       /\ chat target r.2 = (RenderIndex c (load_history r.2) "Bob", r.2)
       /\ c_id c = target.
Proof.
  intros w.
  apply (delete_chat_redirect_resolves "abcd1234" w Sample.bob_session).
  reflexivity.
Defined.

(** New chat always appends one chat, with the first eight characters of
    the uuid as id, the default title and no messages, after the chats
    that were there, and redirects to that id.  When a chat of the history
    already had this id, a fetch by the id still returns that older chat
    and not the new one. *)
Theorem new_chat_appends (uuid4 : string) (w : World) :
  is_Some (session w) ->
  let r := new_chat uuid4 w in
  r.1 = Redirect (ep_chat (Py.slice_to 8 uuid4))
  /\ load_history r.2 = load_history w ++ [blank_chat uuid4]
  /\ users_file r.2 = users_file w
  /\ (8 <= String.length uuid4 ->
      String.length (Py.slice_to 8 uuid4) = 8)
  /\ forall older,
       get_chat_by_id (Py.slice_to 8 uuid4) w = Some older ->
       get_chat_by_id (Py.slice_to 8 uuid4) r.2 = Some older.
Proof.
  intros [usr Hs] r. subst r. unfold new_chat. rewrite Hs.
  rewrite create_new_chat_eq. cbn [fst snd].
  unfold get_chat_by_id. rewrite load_history_save_history.
  split; [done|]. split; [done|]. split; [done|].
  split; [apply length_slice_to|].
  intros older Holder. by rewrite find_chat_app, Holder.
Qed.

Lemma new_chat_appends_witness :
  let uuid4 := "abcd1234-5678-4abc-8def-0123456789ab" in
  let w := Sample.world_of [Sample.bob] [Sample.titled_chat] in
  let r := new_chat uuid4 w in
  r.1 = Redirect (ep_chat (Py.slice_to 8 uuid4))
  /\ load_history r.2 = load_history w ++ [blank_chat uuid4]
  /\ users_file r.2 = users_file w
  /\ (8 <= String.length uuid4 ->
      String.length (Py.slice_to 8 uuid4) = 8)
  /\ forall older,
       get_chat_by_id (Py.slice_to 8 uuid4) w = Some older ->
       get_chat_by_id (Py.slice_to 8 uuid4) r.2 = Some older.
Proof.
  intros uuid4 w.
  apply (new_chat_appends uuid4 w). by eexists.
Defined.

(** The way in for a new user: an accepted signup redirects home, and home
    on the world the signup left leads to a chat whose page renders under
    the name that was signed up. *)
Theorem signup_then_home_opens_chat
    (generate_password_hash : string -> string -> string)
    (salt uuid4 : string) (req : Request) (w : World)
    (name email password : string) :
  method req = POST ->
  form req !! "name" = Some name ->
  form req !! "email" = Some email ->
  form req !! "password" = Some password ->
  (forall u, u ∈ load_users w -> u_email u ≠ Py.lower email) ->
  let w1 := (signup generate_password_hash salt req w).2 in
  (signup generate_password_hash salt req w).1 = Redirect ep_home
  /\ exists chat_id c,
       (home uuid4 w1).1 = Redirect (ep_chat chat_id)
       /\ chat chat_id (home uuid4 w1).2
          = (RenderIndex c (load_history (home uuid4 w1).2) name,
             (home uuid4 w1).2)
       /\ c_id c = chat_id.
Proof.
  intros Hm Hn He Hp Hfree%email_taken_false w1. subst w1.
  rewrite (signup_post generate_password_hash salt req w name email password
             Hm Hn He Hp).
  rewrite Hfree. cbn [fst snd]. split; [done|].
  apply (home_new_chat_resolve uuid4 _
           {| s_name := name; s_email := Py.lower email |}).
  reflexivity.
Qed.

Lemma signup_then_home_opens_chat_witness :
  let req :=
    Sample.post [("name", "Eve"); ("email", "Eve@X.com"); ("password", "pw")] in
  let uuid4 := "0f8e7d6c-5b4a-4392-8171-6f5e4d3c2b1a" in
  let w := Sample.anonymous [Sample.bob] in
  let w1 := (signup Sample.generate "s2" req w).2 in
  (signup Sample.generate "s2" req w).1 = Redirect ep_home
  /\ exists chat_id c,
       (home uuid4 w1).1 = Redirect (ep_chat chat_id)
       /\ chat chat_id (home uuid4 w1).2
          = (RenderIndex c (load_history (home uuid4 w1).2) "Eve",
             (home uuid4 w1).2)
       /\ c_id c = chat_id.
Proof.
  intros req uuid4 w.
  apply (signup_then_home_opens_chat Sample.generate "s2" uuid4 req w "Eve"
           "Eve@X.com" "pw"); try reflexivity.
  intros u ->%list_elem_of_singleton. discriminate.
Defined.

(** A chat id that names no chat is not an error: for a logged-in user the
    chat view of such an id redirects home and changes nothing, and so
    does the chat view that follows the redirect of a send or of a
    deletion with that id. *)
Theorem unknown_chat_goes_home (chat_id : string) (outcome : Completion)
    (req : Request) (w : World) :
  is_Some (session w) ->
  (forall c, c ∈ load_history w -> c_id c ≠ chat_id) ->
  chat chat_id w = (Redirect ep_home, w)
  /\ chat chat_id (send chat_id outcome req w).2
     = (Redirect ep_home, (send chat_id outcome req w).2)
  /\ chat chat_id (delete_chat chat_id w).2
     = (Redirect ep_home, (delete_chat chat_id w).2).
Proof.
  intros Hs Habsent. pose proof Habsent as Hnone%find_chat_None.
  assert (forall w', session w' = session w ->
            find_chat chat_id (load_history w') = None ->
            chat chat_id w' = (Redirect ep_home, w')) as Hview.
  { intros w' Hs' Hfind. unfold chat, get_chat_by_id. rewrite Hs', Hfind.
    by destruct Hs as [usr ->]. }
  split; [by apply Hview|]. split.
  - apply Hview; [apply session_send|].
    unfold send. destruct Hs as [usr ->].
    destruct (form req !! "msg") as [user_input|]; [|done]. cbn [snd].
    rewrite load_history_save_history. by rewrite send_loop_absent.
  - rewrite (delete_chat_logged_in chat_id w Hs).
    apply Hview; [done|]. rewrite load_history_save_history.
    by rewrite find_chat_without_chat, String.eqb_refl.
Qed.

Lemma unknown_chat_goes_home_witness :
  let req := Sample.post [("msg", "Hello")] in
  let w := Sample.world_of [Sample.bob] [Sample.titled_chat] in
  chat "ffff0000" w = (Redirect ep_home, w)
  /\ chat "ffff0000" (send "ffff0000" (Replied "Hi") req w).2
     = (Redirect ep_home, (send "ffff0000" (Replied "Hi") req w).2)
  /\ chat "ffff0000" (delete_chat "ffff0000" w).2
     = (Redirect ep_home, (delete_chat "ffff0000" w).2).
Proof.
  intros req w.
  apply (unknown_chat_goes_home "ffff0000" (Replied "Hi") req w).
  - by eexists.
  - intros c ->%list_elem_of_singleton. discriminate.
Defined.
